(** * jupyterhub-nomad-spawner: the spawner life cycle and the Nomad client

    A shallow embedding of [jupyterhub_nomad_spawner/nomad/nomad_service.py]
    and of the life-cycle methods of [jupyterhub_nomad_spawner/spawner.py]
    ([start], [_ensure_running], [service], [poll], [stop], [clear_state]).

    Python code that awaits remote calls, mutates [self], logs and raises is
    written in a small monad: a computation takes the current world (the
    spawner object and the number of remote calls made so far) and gives an
    outcome, the new world and the events it produced, in order.  As in
    Python, what was written to [self] before an exception stays written.
    The remote systems are oracles: the reply to a call is a function of the
    call's position in the run and of the request. *)

From Stdlib Require Import String Ascii List ZArith Bool Lia DecimalString.
Import ListNotations.
Open Scope string_scope.
Open Scope list_scope.

Set Implicit Arguments.

(** ** Exceptions *)

Inductive exn : Type :=
| TypeError (msg : string)
| AttributeError (msg : string)
| ValueError (msg : string)
| JSONDecodeError
| IndexError (msg : string)
| UnboundLocalError (var : string)
| NomadException (msg : string)
| TransportError (msg : string)
| Exception (msg : string)
| RetryError (last_attempt : exn).

(** ** Strings *)

(** Python's [needle in hay] on [str]. *)
Fixpoint contains (needle hay : string) : bool :=
  String.prefix needle hay
  || match hay with
     | EmptyString => false
     | String _ rest => contains needle rest
     end.

Definition dquote : string := String "034" EmptyString.

(** [%d] and [{...}] formatting of an integer. *)
Definition str_of_Z (z : Z) : string := NilZero.string_of_int (Z.to_int z).

(** [str(x)] of an attribute that holds a [str] or [None]. *)
Definition py_str (o : option string) : string :=
  match o with
  | Some s => s
  | None => "None"
  end.

(** Truth value of an attribute that holds a [str] or [None]. *)
Definition truthy (o : option string) : bool :=
  match o with
  | Some (String _ _) => true
  | _ => false
  end.

(** ** HTTP responses (httpx) *)

(** [json] is [None] when the body does not decode: [Response.json()] then
    raises.  The decoded document is typed by the endpoint. *)
Record Response (A : Type) : Type := mkResponse {
  status_code : Z;
  text : string;
  json : option A
}.

(** httpx: [is_error] holds for the 4xx and 5xx codes. *)
Definition is_error {A} (r : Response A) : bool :=
  (400 <=? status_code r)%Z && (status_code r <=? 599)%Z.

(** What awaiting a client call gives: a response, or the exception the
    transport raised. *)
Inductive reply (A : Type) : Type :=
| Answer (r : Response A)
| Fails (e : exn).
Arguments Fails {A} e.

(** ** Documents exchanged with Nomad and Consul *)

Record CSIVolumeCapability : Type := {
  cap_AttachmentMode : string;
  cap_AccessMode : string
}.

Record CSIVolume : Type := {
  vol_ID : string;
  vol_Name : string;
  vol_ExternalID : string;
  vol_AttachmentMode : string;
  vol_AccessMode : string;
  vol_PluginID : option string;
  vol_RequestedCapabilities : list CSIVolumeCapability;
  vol_Parameters : option (list (string * string));
  vol_RequestedCapacityMin : option Z
}.

Record CSIVolumeCreateRequest : Type := { Volumes : list CSIVolume }.

(** The canonicalised job that [/v1/jobs/parse] answers with. *)
Record Job : Type := { ID : string; Name : string }.

Record JobRegisterRequest : Type := {
  EnforceIndex : bool;
  PreserveCounts : bool;
  PolicyOverride : bool;
  JobModifyIndex : Z;
  reg_Job : Job
}.

(** [/v1/job/<id>]: the only key read is [Status], with [.get] and the
    empty string as default: [None] is the absent key, [Some s] the string
    under the key.  The documents taken here hold a string under [Status]
    when the key is there. *)
Record JobDetail : Type := { Status : option string }.

(** Modelled from the spec: [nomad_model.TaskState] and its events are not
    among the sources; the fields are the ones [task_status] and
    [_get_task_state_from_event] read (the per-task runtime state of an
    allocation: its state, whether it failed, its lifecycle events). *)
Record TaskEvent : Type := { Type_ : string }.

Record TaskState : Type := {
  State : string;
  Failed : bool;
  Events : option (list TaskEvent)
}.

(** An allocation; [TaskStates] keeps the order of the JSON object, which is
    the order in which Python iterates the dict. *)
Record Allocation : Type := {
  CreateTime : Z;
  TaskStates : option (list (string * TaskState))
}.

Record ServiceRegistration : Type := { srv_Address : string; srv_Port : Z }.

(** Modelled from the spec: [consul_service.ConsulService.health_service] is
    not among the sources; it answers with the healthy instances of a
    service name, each carrying [Service.Address] and [Service.Port], an
    empty list when none is registered, and fails on a transport or non-2xx
    error. *)
Record ConsulServiceEntry : Type := { Address : string; Port : Z }.
Record HealthNode : Type := { Service : ConsulServiceEntry }.

Inductive health_reply : Type :=
| Healthy (nodes : list HealthNode)
| HealthFails (e : exn).

(** ** The spawner object *)

Record UserOptions : Type := {
  image : string;
  datacenters : list string;
  memory : Z;
  volume_type : option string;
  volume_source : option string;
  volume_destination : option string;
  volume_csi_plugin_id : option string
}.

(** The class declares none of [job_id], [job_name], [service_name] and
    [notebook_id]: each exists on the object only once it has been assigned
    (by [start], [load_state] or [clear_state]).  [has_job_id] and the like
    tell whether the attribute exists; its value is a [str] or [None]. *)
Record Spawner : Type := mkSpawner {
  user_name : string;
  name : string;
  user_options : UserOptions;
  api_token : string;
  job_id : option string;
  job_name : option string;
  service_name : option string;
  notebook_id : option string;
  has_job_id : bool;
  has_job_name : bool;
  has_service_name : bool;
  has_notebook_id : bool
}.

(** An assignment to an attribute creates it. *)
Definition set_job_id (v : option string) (s : Spawner) : Spawner :=
  mkSpawner (user_name s) (name s) (user_options s) (api_token s)
            v (job_name s) (service_name s) (notebook_id s)
            true (has_job_name s) (has_service_name s) (has_notebook_id s).
Definition set_job_name (v : option string) (s : Spawner) : Spawner :=
  mkSpawner (user_name s) (name s) (user_options s) (api_token s)
            (job_id s) v (service_name s) (notebook_id s)
            (has_job_id s) true (has_service_name s) (has_notebook_id s).
Definition set_service_name (v : option string) (s : Spawner) : Spawner :=
  mkSpawner (user_name s) (name s) (user_options s) (api_token s)
            (job_id s) (job_name s) v (notebook_id s)
            (has_job_id s) (has_job_name s) true (has_notebook_id s).
Definition set_notebook_id (v : option string) (s : Spawner) : Spawner :=
  mkSpawner (user_name s) (name s) (user_options s) (api_token s)
            (job_id s) (job_name s) (service_name s) v
            (has_job_id s) (has_job_name s) (has_service_name s) true.
Definition set_api_token (v : string) (s : Spawner) : Spawner :=
  mkSpawner (user_name s) (name s) (user_options s) v
            (job_id s) (job_name s) (service_name s) (notebook_id s)
            (has_job_id s) (has_job_name s) (has_service_name s) (has_notebook_id s).

(** ** Events *)

Inductive client_name : Type := NomadClient | ConsulClient.

Inductive Event : Type :=
| EvPutVolumeCreate (url : string) (body : CSIVolumeCreateRequest) (r : reply unit)
| EvPostVolumeDelete (url : string) (r : reply unit)
| EvPostJobsParse (url : string) (job_hcl : string) (r : reply Job)
| EvPostJobs (url : string) (body : JobRegisterRequest) (r : reply unit)
| EvGetJob (url : string) (r : reply JobDetail)
| EvGetAllocations (url : string) (r : reply (list Allocation))
| EvDeleteJob (url : string) (purge : option bool) (r : reply unit)
| EvGetService (url : string) (r : reply (list ServiceRegistration))
| EvHealthService (service : option string) (r : health_reply)
| EvSleep (seconds : nat)
| EvLog (level : string) (msg : string)
| EvClose (c : client_name).

(** ** The environment *)

Record JobVolumeData : Type := {
  jv_type : string;
  jv_destination : option string;
  jv_source : option string
}.

Record JobData : Type := {
  jd_username : string;
  jd_env : list (string * string);
  jd_args : list string;
  jd_image : string;
  jd_datacenters : list string;
  jd_memory : Z;
  jd_volume_data : option JobVolumeData
}.

(** The remote systems and the collaborators whose code lies outside these
    two files.  The [nat] of an oracle is the number of remote calls made
    before this one.  [create_job] is the rendering of the job template for
    the job descriptions that the builder accepts. *)
Record Env : Type := {
  put_volume_create : nat -> string -> CSIVolumeCreateRequest -> reply unit;
  post_volume_delete : nat -> string -> reply unit;
  post_jobs_parse : nat -> string -> string -> reply Job;
  post_jobs : nat -> string -> JobRegisterRequest -> reply unit;
  get_job : nat -> string -> reply JobDetail;
  get_allocations : nat -> string -> reply (list Allocation);
  delete_job_call : nat -> string -> option bool -> reply unit;
  get_service : nat -> string -> reply (list ServiceRegistration);
  health_service : nat -> option string -> health_reply;
  sha1_hexdigest : string -> string;
  get_env : Spawner -> list (string * string);
  get_args : Spawner -> list string;
  create_job : JobData -> string
}.

(** ** The monad *)

Record World : Type := mkWorld { self : Spawner; calls : nat }.

Inductive outcome (A : Type) : Type :=
| Return (a : A)
| Raise (e : exn)
| OutOfFuel.
Arguments Raise {A} e.
Arguments OutOfFuel {A}.

Definition M (A : Type) : Type := World -> outcome A * World * list Event.

Definition ret {A} (a : A) : M A := fun w => (Return a, w, []).

Definition raise {A} (e : exn) : M A := fun w => (Raise e, w, []).

Definition bind {A B} (m : M A) (k : A -> M B) : M B :=
  fun w =>
    match m w with
    | (Return a, w1, t1) =>
        match k a w1 with
        | (o, w2, t2) => (o, w2, t1 ++ t2)
        end
    | (Raise e, w1, t1) => (Raise e, w1, t1)
    | (OutOfFuel, w1, t1) => (OutOfFuel, w1, t1)
    end.

Declare Scope py_scope.
Delimit Scope py_scope with py.
Notation "x <- m ;; k" := (bind m (fun x => k))
  (at level 61, m at next level, right associativity) : py_scope.
Notation "m ;; k" := (bind m (fun _ => k))
  (at level 61, right associativity) : py_scope.
Open Scope py_scope.

Definition emit (e : Event) : M unit := fun w => (Return tt, w, [e]).

Definition log (level msg : string) : M unit := emit (EvLog level msg).

Definition sleep (seconds : nat) : M unit := emit (EvSleep seconds).

Definition aclose (c : client_name) : M unit := emit (EvClose c).

Definition get_self : M Spawner := fun w => (Return (self w), w, []).

Definition modify_self (f : Spawner -> Spawner) : M unit :=
  fun w => (Return tt, mkWorld (f (self w)) (calls w), []).

(** [try: m except Exception as e: h e] *)
Definition try_except {A} (m : M A) (h : exn -> M A) : M A :=
  fun w =>
    match m w with
    | (Raise e, w1, t1) =>
        match h e w1 with
        | (o, w2, t2) => (o, w2, t1 ++ t2)
        end
    | r => r
    end.

(** [try: m finally: f]; an exception of [f] replaces the outcome of [m]. *)
Definition try_finally {A} (m : M A) (f : M unit) : M A :=
  fun w =>
    match m w with
    | (OutOfFuel, w1, t1) => (OutOfFuel, w1, t1)
    | (o, w1, t1) =>
        match f w1 with
        | (Return _, w2, t2) => (o, w2, t1 ++ t2)
        | (Raise e, w2, t2) => (Raise e, w2, t1 ++ t2)
        | (OutOfFuel, w2, t2) => (OutOfFuel, w2, t1 ++ t2)
        end
    end.

(** One awaited call of the HTTP client. *)
Definition await {A} (r : nat -> reply A) (ev : reply A -> Event) : M (Response A) :=
  fun w =>
    let w' := mkWorld (self w) (S (calls w)) in
    match r (calls w) with
    | Answer resp => (Return resp, w', [ev (Answer resp)])
    | Fails e => (Raise e, w', [ev (Fails e)])
    end.

(** [response.json()] *)
Definition json_of {A} (r : Response A) : M A :=
  match json r with
  | Some doc => ret doc
  | None => raise JSONDecodeError
  end.

Definition trace {A} (r : outcome A * World * list Event) : list Event := snd r.
Definition result {A} (r : outcome A * World * list Event) : outcome A := fst (fst r).
Definition final {A} (r : outcome A * World * list Event) : Spawner := self (snd (fst r)).

(** [self.attr] for one of the identity attributes: [AttributeError] when
    the attribute was never assigned. *)
Definition read_attr (attr : string) (has : Spawner -> bool)
    (value : Spawner -> option string) : M (option string) :=
  fun w =>
    if has (self w)
    then (Return (value (self w)), w, [])
    else (Raise (AttributeError
                   ("'NomadSpawner' object has no attribute '" ++ attr ++ "'")%string),
          w, []).

(** * nomad_service.py *)

Record NomadService : Type := { namespace : string }.

(** The class is declared with attrs' [@define] and three attributes without
    a default ([client], [log], [namespace]): the generated initialiser
    requires all three and raises [TypeError] when one is not passed. *)
Definition NomadService_init (client : option client_name) (log_ : option unit)
    (namespace_ : option string) : M NomadService :=
  match client, log_, namespace_ with
  | Some _, Some _, Some ns => ret {| namespace := ns |}
  | Some _, Some _, None =>
      raise (TypeError "__init__() missing 1 required positional argument: 'namespace'")
  | _, _, _ => raise (TypeError "__init__() missing required positional arguments")
  end.

Definition marker_access_point : string :=
  ("ErrorCode: " ++ dquote ++ "AccessPointAlreadyExists" ++ dquote)%string.

Definition marker_external_id : string := "volume external ID cannot be updated".

(** [max(xs, key=key)]: the first of the greatest elements; [ValueError] on
    an empty sequence. *)
Fixpoint max_from {A} (key : A -> Z) (best : A) (xs : list A) : A :=
  match xs with
  | [] => best
  | x :: rest =>
      if (key best <? key x)%Z then max_from key x rest else max_from key best rest
  end.

Definition py_max {A} (key : A -> Z) (xs : list A) : M A :=
  match xs with
  | [] => raise (ValueError "max() arg is an empty sequence")
  | x :: rest => ret (max_from key x rest)
  end.

(** Truth value of an [httpx.Response]: the class defines neither
    [__bool__] nor [__len__], so every response object is true. *)
Definition response_truth {A} (r : Response A) : bool := true.

(** Truth value of an allocation dict: it holds the key [CreateTime], so it
    is not empty. *)
Definition allocation_truth (a : Allocation) : bool := true.

(** [_get_task_state_from_event] *)
Definition _get_task_state_from_event (task : TaskState) : string :=
  match Events task with
  | None => "pending"
  | Some events =>
      match rev events with
      | [] => "pending"
      | latest_event :: _ =>
          if (Type_ latest_event =? "Driver") || (Type_ latest_event =? "Task Setup")
          then "starting"
          else "pending"
      end
  end.

(** The [for task in task_states.values()] loop of [task_status] and the
    [return "running"] after it. *)
Fixpoint task_loop (tasks : list (string * TaskState)) : string :=
  match tasks with
  | [] => "running"
  | (_, task) :: rest =>
      if (State task =? "dead") && Failed task then "dead"
      else if negb (State task =? "running") then _get_task_state_from_event task
      else task_loop rest
  end.

Section Service.

Variable env : Env.
Variable svc : NomadService.

Definition create_volume (id : string) (plugin_id : option string)
    (parameters : option (list (string * string))) (min_size : option Z) : M unit :=
  let request :=
    {| Volumes :=
         [ {| vol_ID := id;
              vol_Name := id;
              vol_ExternalID := id;
              vol_AttachmentMode := "file-system";
              vol_AccessMode := "single-node-writer";
              vol_PluginID := plugin_id;
              vol_RequestedCapabilities :=
                [ {| cap_AttachmentMode := "file-system";
                     cap_AccessMode := "single-node-writer" |} ];
              vol_Parameters := parameters;
              vol_RequestedCapacityMin := min_size |} ] |} in
  let url := ("/v1/volume/csi/" ++ id ++ "/create?namespace=" ++ namespace svc)%string in
  result <- await (fun n => put_volume_create env n url request)
                  (EvPutVolumeCreate url request) ;;
  (if is_error result
   then
     if negb (contains marker_access_point (text result))
        && negb (contains marker_external_id (text result))
     then raise (NomadException
                   ("Error registering volume. status code: "
                    ++ str_of_Z (status_code result)
                    ++ ", content: " ++ text result)%string)
     else ret tt
   else ret tt) ;;
  log "info" ("Created volume (status code: " ++ str_of_Z (status_code result) ++ ")")%string.

Definition delete_volume (id : string) : M unit :=
  let url := ("/v1/volume/csi/" ++ id ++ "/delete?namespace=" ++ namespace svc)%string in
  result <- await (fun n => post_volume_delete env n url) (EvPostVolumeDelete url) ;;
  if is_error result
  then raise (NomadException ("Error deleting volume: " ++ text result)%string)
  else ret tt.

(** The value returned is [job_id] alone, read from the parsed job. *)
Definition schedule_job (job_hcl : string) : M string :=
  log "info" ("Parsing job: " ++ job_hcl)%string ;;
  let parse_url := ("/v1/jobs/parse?namespace=" ++ namespace svc)%string in
  parsed_job <- await (fun n => post_jobs_parse env n parse_url job_hcl)
                      (EvPostJobsParse parse_url job_hcl) ;;
  if is_error parsed_job
  then raise (NomadException ("Error parsing job: " ++ text parsed_job)%string)
  else
    parsed_job_as_dict <- json_of parsed_job ;;
    log "info" ("Got parsed job " ++ ID parsed_job_as_dict)%string ;;
    let job_id := ID parsed_job_as_dict in
    let register_job_as_dict :=
      {| EnforceIndex := false;
         PreserveCounts := true;
         PolicyOverride := false;
         JobModifyIndex := 0;
         reg_Job := parsed_job_as_dict |} in
    job <- await (fun n => post_jobs env n "/v1/jobs" register_job_as_dict)
                 (EvPostJobs "/v1/jobs" register_job_as_dict) ;;
    if is_error job
    then raise (NomadException ("Error registering job: " ++ text job)%string)
    else ret job_id.

Definition job_status (job_id : option string) : M string :=
  let url := ("/v1/job/" ++ py_str job_id ++ "?namespace=" ++ namespace svc)%string in
  response <- await (fun n => get_job env n url) (EvGetJob url) ;;
  if is_error response
  then raise (NomadException ("Error getting job status: " ++ text response)%string)
  else
    job_detail <- json_of response ;;
    ret (match Status job_detail with
         | Some s => s
         | None => EmptyString
         end).

Definition task_status (job_name : string) : M string :=
  let url := ("/v1/job/" ++ job_name ++ "/allocations?namespace=" ++ namespace svc)%string in
  allocs <- await (fun n => get_allocations env n url) (EvGetAllocations url) ;;
  if negb (response_truth allocs)
  then ret "pending"
  else
    allocs <- json_of allocs ;;
    latest_alloc <- py_max CreateTime allocs ;;
    if negb (allocation_truth latest_alloc)
    then ret "pending"
    else
      let task_states :=
        match TaskStates latest_alloc with
        | Some ts => ts
        | None => []
        end in
      match task_states with
      | [] => ret "pending"
      | _ :: _ => ret (task_loop task_states)
      end.

Definition job_allocations (job_id : string) : M (list Allocation) :=
  let url := ("/v1/job/" ++ job_id ++ "/allocations")%string in
  response <- await (fun n => get_allocations env n url) (EvGetAllocations url) ;;
  if is_error response
  then raise (NomadException ("Error getting job allocations: " ++ text response)%string)
  else json_of response.

Definition delete_job (job_id : option string) (purge : option bool) : M unit :=
  let params :=
    match purge with
    | Some true => Some true
    | _ => None
    end in
  let url := ("/v1/job/" ++ py_str job_id ++ "?namespace=" ++ namespace svc)%string in
  response <- await (fun n => delete_job_call env n url params) (EvDeleteJob url params) ;;
  if is_error response
  then raise (NomadException ("Error deleting job: " ++ text response)%string)
  else ret tt.

Definition get_service_address (service_name_ : string) : M (string * Z) :=
  let url := ("/v1/service/" ++ service_name_ ++ "?namespace=" ++ namespace svc)%string in
  response <- await (fun n => get_service env n url) (EvGetService url) ;;
  if is_error response
  then raise (NomadException ("Error reading service: " ++ text response)%string)
  else
    services <- json_of response ;;
    match services with
    | [] => raise (NomadException ("Service " ++ service_name_ ++ " not found")%string)
    | s :: [] => ret (srv_Address s, srv_Port s)
    | _ :: _ :: _ =>
        raise (NomadException ("Multiple services found for " ++ service_name_)%string)
    end.

End Service.

(** * spawner.py *)

(** What [poll] hands back: [None], a status string, or an integer. *)
Inductive PollResult : Type :=
| PollNone
| PollStatus (status : string)
| PollInt (code : Z).

(** [a, b = s] with [s] a [str]: the string is iterated character by
    character and must yield exactly two items. *)
Definition unpack2 (s : string) : M (string * string) :=
  match s with
  | String a (String b EmptyString) =>
      ret (String a EmptyString, String b EmptyString)
  | String _ (String _ (String _ _)) =>
      raise (ValueError "too many values to unpack (expected 2)")
  | _ => raise (ValueError "not enough values to unpack (expected 2)")
  end.

(** [tenacity.retry(wait=wait_fixed(w), stop=stop_after_attempt(n))] around
    a coroutine: any exception of an attempt leads to another attempt after
    [w] seconds, until attempt [n] has failed; then [RetryError] is raised,
    carrying the last failure. *)
Fixpoint retrying {A} (wait_fixed attempts_left : nat) (f : M A) : M A :=
  try_except f
    (fun e =>
       match attempts_left with
       | 0 => raise (RetryError e)
       | S k => sleep wait_fixed ;; retrying wait_fixed k f
       end).

Definition retry {A} (wait_fixed stop_after_attempt : nat) (f : M A) : M A :=
  retrying wait_fixed (stop_after_attempt - 1) f.

(** The persisted state is a dict from keys to [str] or [None]. *)
Definition state_dict : Type := list (string * option string).

Fixpoint dict_get (k : string) (d : state_dict) : option (option string) :=
  match d with
  | [] => None
  | (k', v) :: rest => if k =? k' then Some v else dict_get k rest
  end.

Fixpoint dict_set (k : string) (v : option string) (d : state_dict) : state_dict :=
  match d with
  | [] => [(k, v)]
  | (k', v') :: rest => if k =? k' then (k, v) :: rest else (k', v') :: dict_set k v rest
  end.

Section Spawner.

Variable env : Env.

Definition await_health (service : option string) : M (list HealthNode) :=
  fun w =>
    let w' := mkWorld (self w) (S (calls w)) in
    let r := health_service env (calls w) service in
    match r with
    | Healthy nodes => (Return nodes, w', [EvHealthService service r])
    | HealthFails e => (Raise e, w', [EvHealthService service r])
    end.

(** [clear_state]; the first step is [super().clear_state()], which in
    JupyterHub empties [api_token]. *)
Definition clear_state : M unit :=
  modify_self (set_api_token EmptyString) ;;
  modify_self (set_job_id None) ;;
  modify_self (set_job_name None) ;;
  modify_self (set_service_name None).

(** [get_state]; [super().get_state()] is the empty dict.  The four
    attributes are read in turn. *)
Definition get_state : M state_dict :=
  job_id_ <- read_attr "job_id" has_job_id job_id ;;
  job_name_ <- read_attr "job_name" has_job_name job_name ;;
  service_name_ <- read_attr "service_name" has_service_name service_name ;;
  notebook_id_ <- read_attr "notebook_id" has_notebook_id notebook_id ;;
  ret (dict_set "notebook_id" notebook_id_
         (dict_set "service_name" service_name_
            (dict_set "job_name" job_name_
               (dict_set "job_id" job_id_ [])))).

Definition load_key (k : string) (set : option string -> Spawner -> Spawner)
    (state : state_dict) (s : Spawner) : Spawner :=
  match dict_get k state with
  | Some v => set v s
  | None => s
  end.

Definition load_state (state : state_dict) (s : Spawner) : Spawner :=
  load_key "notebook_id" set_notebook_id state
    (load_key "service_name" set_service_name state
       (load_key "job_name" set_job_name state
          (load_key "job_id" set_job_id state s))).

(** The [while True] loop of [_ensure_running].  [status] is the local
    variable: [None] while nothing has been assigned to it.  [fuel] bounds
    the number of iterations.  [self.job_id] is read as assigned: [start],
    the only caller, assigns it before the call. *)
Fixpoint _ensure_running_loop (nomad_service : NomadService)
    (status : option string) (fuel : nat) : M unit :=
  match fuel with
  | 0 => fun w => (OutOfFuel, w, [])
  | S fuel' =>
      s <- get_self ;;
      status <- try_except
                  (st <- job_status env nomad_service (job_id s) ;; ret (Some st))
                  (fun e => log "error" "Failed to get job status" ;; ret status) ;;
      match status with
      | None => raise (UnboundLocalError "status")
      | Some st =>
          if st =? "running" then ret tt
          else if st =? "dead"
          then raise (Exception ("Job (id=" ++ py_str (job_id s) ++ ") is dead already")%string)
          else
            log "info" ("Waiting for " ++ py_str (job_id s) ++ "...")%string ;;
            sleep 5 ;;
            _ensure_running_loop nomad_service status fuel'
      end
  end.

Definition _ensure_running (nomad_service : NomadService) (fuel : nat) : M unit :=
  _ensure_running_loop nomad_service None fuel.

(** One attempt of [service], the body under the decorator.
    [self.service_name] is read as assigned: [start], the only caller,
    assigns it before the call. *)
Definition service_attempt : M (string * Z) :=
  s <- get_self ;;
  log "info" ("Getting service " ++ py_str (service_name s) ++ " from consul")%string ;;
  nodes <- await_health (service_name s) ;;
  match nodes with
  | [] => raise (IndexError "list index out of range")
  | node :: _ => ret (Address (Service node), Port (Service node))
  end.

(** [@retry(wait=wait_fixed(3), stop=stop_after_attempt(5))] *)
Definition service : M (string * Z) := retry 3 5 service_attempt.

(** The [try] block of [start]. *)
Definition start_try (nomad_service : NomadService) (fuel : nat) : M (string * Z) :=
  s <- get_self ;;
  let opts := user_options s in
  let notebook_id_ :=
    substring 0 10 (sha1_hexdigest env (user_name s ++ ":" ++ name s)%string) in
  log "info" ("server name: " ++ name s)%string ;;
  let env_ := get_env env s in
  let args := get_args env s in
  volume_data <-
    (if truthy (volume_type opts)
     then
       log "info" ("Configuring volume of type: " ++ py_str (volume_type opts))%string ;;
       if py_str (volume_type opts) =? "csi"
       then
         let volume_id := ("notebook-" ++ notebook_id_)%string in
         create_volume env nomad_service volume_id (volume_csi_plugin_id opts) None None ;;
         ret (Some {| jv_type := "csi";
                      jv_destination := volume_destination opts;
                      jv_source := Some volume_id |})
       else if py_str (volume_type opts) =? "host"
       then ret (Some {| jv_type := "host";
                         jv_destination := volume_destination opts;
                         jv_source := volume_source opts |})
       else ret None
     else ret None) ;;
  let job_hcl :=
    create_job env
      {| jd_username := notebook_id_;
         jd_env := env_;
         jd_args := args;
         jd_image := image opts;
         jd_datacenters := datacenters opts;
         jd_memory := memory opts;
         jd_volume_data := volume_data |} in
  returned <- schedule_job env nomad_service job_hcl ;;
  pair <- unpack2 returned ;;
  let job_id_ := fst pair in
  let job_name_ := snd pair in
  modify_self (set_job_id (Some job_id_)) ;;
  modify_self (set_job_name (Some job_name_)) ;;
  modify_self (set_notebook_id (Some notebook_id_)) ;;
  _ensure_running nomad_service fuel ;;
  modify_self (set_service_name (Some (job_id_ ++ "-notebook")%string)) ;;
  service.

(** [start] from its [try] statement on, the two clients and services being
    built. *)
Definition start_with (nomad_service : NomadService) (fuel : nat) : M (string * Z) :=
  try_finally
    (try_except (start_try nomad_service fuel)
       (fun e => log "error" "Failed to start" ;; raise e))
    (aclose NomadClient ;; aclose ConsulClient).

(** [start].  The configuration objects and the HTTP clients built on entry
    are taken as built; the Nomad service is then constructed with [client]
    and [log] only, before the [try] statement. *)
Definition start (fuel : nat) : M (string * Z) :=
  nomad_service <- NomadService_init (Some NomadClient) (Some tt) None ;;
  start_with nomad_service fuel.

(** [poll] from its [try] statement on.  [self.job_id] is read for the
    status query and [self.job_name] for the warning, both inside the
    [try]. *)
Definition poll_with (nomad_service : NomadService) : M PollResult :=
  try_finally
    (try_except
       (job_id_ <- read_attr "job_id" has_job_id job_id ;;
        status <- job_status env nomad_service job_id_ ;;
        let running := status =? "running" in
        if negb running
        then
          job_name_ <- read_attr "job_name" has_job_name job_name ;;
          log "warning"
              ("jupyter notebook not running (" ++ py_str job_name_ ++ "): " ++ status)%string ;;
          ret (PollStatus status)
        else ret PollNone)
       (fun e => log "error" "Failed to poll" ;; ret (PollInt (-1))))
    (aclose NomadClient).

(** [poll]; the service is constructed as in [start], before the [try]. *)
Definition poll : M PollResult :=
  nomad_service <- NomadService_init (Some NomadClient) (Some tt) None ;;
  poll_with nomad_service.

(** [stop] from its [try] statement on; [self.job_id] is read inside the
    [try]. *)
Definition stop_with (nomad_service : NomadService) : M unit :=
  try_finally
    (try_except
       (job_id_ <- read_attr "job_id" has_job_id job_id ;;
        delete_job env nomad_service job_id_ None ;;
        clear_state)
       (fun e => log "error" "Failed to stop"))
    (aclose NomadClient).

(** [stop]; the service is constructed as in [start], before the [try]. *)
Definition stop : M unit :=
  nomad_service <- NomadService_init (Some NomadClient) (Some tt) None ;;
  stop_with nomad_service.

End Spawner.

(** * Sample replies and worlds *)

Definition ok {A} (doc : A) : reply A := Answer (mkResponse 200 EmptyString (Some doc)).

Definition http_error {A} (code : Z) (body : string) : reply A :=
  Answer (mkResponse code body None).

(** An environment in which each endpoint has one oracle given by the
    caller and the local collaborators are fixed. *)
Definition sample_env (volume : reply unit) (parsed : reply Job) (registered : reply unit)
    (job : nat -> reply JobDetail) (allocations : reply (list Allocation))
    (deleted : reply unit) (health : nat -> health_reply) : Env :=
  {| put_volume_create := fun _ _ _ => volume;
     post_volume_delete := fun _ _ => ok tt;
     post_jobs_parse := fun _ _ _ => parsed;
     post_jobs := fun _ _ _ => registered;
     get_job := fun n _ => job n;
     get_allocations := fun _ _ => allocations;
     delete_job_call := fun _ _ _ => deleted;
     get_service := fun _ _ => ok [];
     health_service := fun n _ => health n;
     sha1_hexdigest := fun _ => "3f786850e387550fdab836ed7e6dc881de23001b";
     get_env := fun _ => [("JUPYTERHUB_USER", "alice")];
     get_args := fun _ => ["--port=8888"];
     create_job := fun jd => ("job " ++ jd_username jd)%string |}.

Definition sample_service : NomadService := {| namespace := "default" |}.

Definition no_volume : UserOptions :=
  {| image := "org/image:tag";
     datacenters := ["dc1"];
     memory := 512;
     volume_type := Some EmptyString;
     volume_source := None;
     volume_destination := None;
     volume_csi_plugin_id := None |}.

(** A spawner that has not started. *)
Definition fresh_spawner : Spawner :=
  mkSpawner "alice" "lab" no_volume "token" None None None None
            false false false false.

(** A spawner revived with the identity of a started workload. *)
Definition started_spawner : Spawner :=
  mkSpawner "alice" "lab" no_volume "token"
            (Some "notebook-3f786850e3") (Some "notebook-3f786850e3")
            (Some "notebook-3f786850e3-notebook") (Some "3f786850e3")
            true true true true.

Definition sample_job : Job :=
  {| ID := "notebook-3f786850e3"; Name := "notebook-3f786850e3" |}.

Definition status_is (s : string) : reply JobDetail := ok {| Status := Some s |}.

Definition node_at (address : string) (port : Z) : HealthNode :=
  {| Service := {| Address := address; Port := port |} |}.

Definition running_task : TaskState :=
  {| State := "running"; Failed := false; Events := Some [ {| Type_ := "Started" |} ] |}.

Definition pending_task : TaskState :=
  {| State := "pending"; Failed := false; Events := Some [ {| Type_ := "Received" |} ] |}.

Definition failed_task : TaskState :=
  {| State := "dead"; Failed := true; Events := Some [ {| Type_ := "Terminated" |} ] |}.

(** A prestart task that ran to completion. *)
Definition finished_task : TaskState :=
  {| State := "dead"; Failed := false;
     Events := Some [ {| Type_ := "Started" |}; {| Type_ := "Terminated" |} ] |}.

(** ** Reading a trace *)

Definition reports_running (e : Event) : bool :=
  match e with
  | EvGetJob _ (Answer resp) =>
      negb (is_error resp)
      && match json resp with
         | Some {| Status := Some s |} => s =? "running"
         | _ => false
         end
  | _ => false
  end.

Definition is_registry_query (e : Event) : bool :=
  match e with
  | EvHealthService _ _ => true
  | _ => false
  end.

(** Every registry query of the trace comes after an event in which the
    scheduler reported [running]; [seen] tells whether such an event came
    before the trace. *)
Fixpoint registry_after_running (seen : bool) (t : list Event) : bool :=
  match t with
  | [] => true
  | e :: rest =>
      (if is_registry_query e then seen else true)
      && registry_after_running (seen || reports_running e) rest
  end.

Definition is_raise {A} (o : outcome A) : bool :=
  match o with
  | Raise _ => true
  | _ => false
  end.

(** The identity fields that [get_state] persists are all [None]. *)
Definition identity_cleared (s : Spawner) : Prop :=
  job_id s = None /\ job_name s = None /\ service_name s = None /\ notebook_id s = None.

(** ** Names used in the statements *)

Definition create_volume_url (svc : NomadService) (id : string) : string :=
  ("/v1/volume/csi/" ++ id ++ "/create?namespace=" ++ namespace svc)%string.

Definition create_volume_request (id : string) (plugin_id : option string)
    (parameters : option (list (string * string))) (min_size : option Z)
    : CSIVolumeCreateRequest :=
  {| Volumes :=
       [ {| vol_ID := id;
            vol_Name := id;
            vol_ExternalID := id;
            vol_AttachmentMode := "file-system";
            vol_AccessMode := "single-node-writer";
            vol_PluginID := plugin_id;
            vol_RequestedCapabilities :=
              [ {| cap_AttachmentMode := "file-system";
                   cap_AccessMode := "single-node-writer" |} ];
            vol_Parameters := parameters;
            vol_RequestedCapacityMin := min_size |} ] |}.

(** A second create call that meets the already-exists body. *)
Definition already_exists_body : string :=
  ("rpc error: ErrorCode: " ++ dquote ++ "AccessPointAlreadyExists" ++ dquote)%string.

Definition job_url (svc : NomadService) (job : option string) : string :=
  ("/v1/job/" ++ py_str job ++ "?namespace=" ++ namespace svc)%string.

Definition allocations_url (svc : NomadService) (job : string) : string :=
  ("/v1/job/" ++ job ++ "/allocations?namespace=" ++ namespace svc)%string.

Definition all_running (tasks : list (string * TaskState)) : Prop :=
  Forall (fun p => State (snd p) = "running") tasks.

Definition service_log (s : Spawner) : Event :=
  EvLog "info" ("Getting service " ++ py_str (service_name s) ++ " from consul")%string.

(** A computation is quiet when it never queries the registry. *)
Definition quiet {A} (m : M A) : Prop :=
  forall w, existsb is_registry_query (trace (m w)) = false.

(** A computation is ordered when each of its registry queries comes after
    an answer [running] of the scheduler. *)
Definition ordered {A} (m : M A) : Prop :=
  forall w, registry_after_running false (trace (m w)) = true.

(** An environment whose job id has two characters, the only ids that
    [start] can unpack; the job runs at once and one instance is healthy. *)
Definition short_id_env : Env :=
  sample_env (ok tt) (ok {| ID := "nb"; Name := "notebook" |}) (ok tt)
             (fun _ => status_is "running") (ok []) (ok tt)
             (fun _ => Healthy [node_at "10.0.0.7" 8888]).

(** * Further definitions *)

(** ** get_service_of_allocation *)

(** [/v1/allocation/<id>]: the keys that [get_service_of_allocation] reads;
    [Networks] is the list under [Resources], each network with its [IP] and
    its [DynamicPorts]. *)
Record DynamicPort : Type := { Value : Z }.
Record NetworkResource : Type := { IP : string; DynamicPorts : list DynamicPort }.
Record AllocationDetail : Type := { Networks : list NetworkResource }.

(** The oracle of the allocation endpoint is an argument of its own; the
    call is counted and leaves no event in the trace. *)
Definition get_service_of_allocation
    (get_allocation : nat -> string -> reply AllocationDetail)
    (svc : NomadService) (allocation_id : string) : M (string * Z) :=
  let url := ("/v1/allocation/" ++ allocation_id ++ "?namespace=" ++ namespace svc)%string in
  fun w =>
    let w' := mkWorld (self w) (S (calls w)) in
    match get_allocation (calls w) url with
    | Fails e => (Raise e, w', [])
    | Answer response =>
        if is_error response
        then (Raise (NomadException ("Error reading allocation: " ++ text response)%string),
              w', [])
        else
          match json response with
          | None => (Raise JSONDecodeError, w', [])
          | Some allocation =>
              match Networks allocation with
              | [] => (Raise (IndexError "list index out of range"), w', [])
              | network :: _ =>
                  match DynamicPorts network with
                  | [] => (Raise (IndexError "list index out of range"), w', [])
                  | port :: _ => (Return (IP network, Value port), w', [])
                  end
              end
          end
    end.

(** ** The Nomad client configuration *)

(** A [Path] is kept as the string it was built from; as an object it is
    true whatever that string is. *)
Record NomadTLSConfig : Type := {
  ca_cert : option string;
  ca_path : option string;
  client_cert : string;
  client_key : string;
  skip_verify : bool;
  tls_server_name : option string
}.

Record NomadServiceConfig : Type := {
  nomad_addr : string;
  nomad_token : option string;
  tls_config : option NomadTLSConfig
}.

(** The traits of the spawner that [build_nomad_config_from_options] reads;
    each is a [Unicode] or [Bool] trait, so none is [None]. *)
Record NomadOptions : Type := {
  opt_nomad_addr : string;
  opt_nomad_token : string;
  opt_nomad_ca_cert : string;
  opt_nomad_ca_path : string;
  opt_nomad_client_cert : string;
  opt_nomad_client_key : string;
  opt_nomad_tls_skip_verify : bool;
  opt_nomad_tls_server_name : string
}.

(** [build_nomad_config_from_options]; the validation of the address by
    pydantic is left out, the fields are passed as given. *)
Definition build_nomad_config_from_options (options : NomadOptions) : NomadServiceConfig :=
  {| nomad_addr := opt_nomad_addr options;
     nomad_token := Some (opt_nomad_token options);
     tls_config :=
       if truthy (Some (opt_nomad_client_key options))
       then Some {| ca_cert := Some (opt_nomad_ca_cert options);
                    ca_path := Some (opt_nomad_ca_path options);
                    client_cert := opt_nomad_client_cert options;
                    client_key := opt_nomad_client_key options;
                    skip_verify := opt_nomad_tls_skip_verify options;
                    tls_server_name := Some (opt_nomad_tls_server_name options) |}
       else None |}.

(** The [verify] argument of the client: [True], [False], or an SSL context
    that trusts the given CA file. *)
Inductive Verify : Type :=
| VerifyDefault
| VerifyOff
| VerifyContext (cafile : string).

(** The arguments [AsyncClient] is built with. *)
Record ClientArguments : Type := {
  base_url : string;
  verify : Verify;
  cert : option (string * string);
  headers : option (list (string * string))
}.

(** [build_nomad_httpx_client].  [resolve] is [str(Path(p).resolve())];
    [load_verify_locations] is the creation of the default context followed
    by the loading of the CA file, and answers with the exception raised, if
    any. *)
Definition build_nomad_httpx_client (resolve : string -> string)
    (load_verify_locations : string -> option exn) (config : NomadServiceConfig)
    : exn + ClientArguments :=
  let no_tls := (VerifyDefault, @None (string * string)) in
  let chosen :=
    match tls_config config with
    | None => inr no_tls
    | Some tls =>
        let cert_ := (resolve (client_cert tls), resolve (client_key tls)) in
        match skip_verify tls, ca_cert tls with
        | false, Some ca =>
            match load_verify_locations (resolve ca) with
            | Some e => inl e
            | None => inr (VerifyContext (resolve ca), Some cert_)
            end
        | _, _ => inr (VerifyOff, Some cert_)
        end
    end in
  match chosen with
  | inl e => inl e
  | inr (verify_, cert_) =>
      inr {| base_url := nomad_addr config;
             verify := verify_;
             cert := cert_;
             headers :=
               if truthy (nomad_token config)
               then Some [("X-Nomad-Token", py_str (nomad_token config))]
               else None |}
  end.

(** ** Reading a trace, continued *)

(** The seconds slept during a trace. *)
Fixpoint slept (t : list Event) : nat :=
  match t with
  | [] => 0
  | EvSleep n :: rest => n + slept rest
  | _ :: rest => slept rest
  end.

Definition is_status_query (e : Event) : bool :=
  match e with
  | EvGetJob _ _ => true
  | _ => false
  end.

Definition is_submission (e : Event) : bool :=
  match e with
  | EvPostJobsParse _ _ _ => true
  | EvPostJobs _ _ _ => true
  | _ => false
  end.

Definition is_volume_create (e : Event) : bool :=
  match e with
  | EvPutVolumeCreate _ _ _ => true
  | _ => false
  end.

(** The status that [job_status] returns for a reply; [None] when it
    raises. *)
Definition status_of_reply (r : reply JobDetail) : option string :=
  match r with
  | Fails _ => None
  | Answer resp =>
      if is_error resp then None
      else match json resp with
           | None => None
           | Some detail =>
               Some (match Status detail with
                     | Some s => s
                     | None => EmptyString
                     end)
           end
  end.

(** A status on which [_ensure_running] waits. *)
Definition waiting (s : string) : bool := negb (s =? "running") && negb (s =? "dead").

(** What a turn of [_ensure_running] leaves in the trace when it waits. *)
Definition waiting_events (s : Spawner) : list Event :=
  [ EvLog "info" ("Waiting for " ++ py_str (job_id s) ++ "...")%string; EvSleep 5 ].

(** An answer of the registry that names no instance, or its failure. *)
Definition no_instance (r : health_reply) : bool :=
  match r with
  | Healthy (_ :: _) => false
  | _ => true
  end.

(** A computation none of whose events satisfies [p]. *)
Definition silent {A} (p : Event -> bool) (m : M A) : Prop :=
  forall w, existsb p (trace (m w)) = false.

(** Requests that remove something from the scheduler. *)
Definition is_delete (e : Event) : bool :=
  match e with
  | EvDeleteJob _ _ _ => true
  | EvPostVolumeDelete _ _ => true
  | _ => false
  end.

(** Requests that change something in the scheduler. *)
Definition is_mutation (e : Event) : bool :=
  is_delete e || is_submission e || is_volume_create e.

Definition is_log (e : Event) : bool :=
  match e with
  | EvLog _ _ => true
  | _ => false
  end.

(** A trace without its log records. *)
Definition without_logs (t : list Event) : list Event :=
  filter (fun e => negb (is_log e)) t.

(** The statuses that [task_status] can answer. *)
Definition job_statuses : list string := ["pending"; "starting"; "running"; "dead"].

(** Every status query of the trace is for the job [job]. *)
Definition status_queries_for (svc : NomadService) (job : option string)
    (t : list Event) : Prop :=
  forall url r, In (EvGetJob url r) t -> url = job_url svc job.

(** A computation that leaves the spawner object as it is. *)
Definition keeps_self {A} (m : M A) : Prop :=
  forall w, self (snd (fst (m w))) = self w.

(** A computation that always finishes. *)
Definition finishes {A} (m : M A) : Prop :=
  forall w, fst (fst (m w)) <> OutOfFuel.

(** The job description that [start] hands to [create_job]. *)
Definition job_data_of (env : Env) (s : Spawner) (volume_data : option JobVolumeData)
    : JobData :=
  {| jd_username :=
       substring 0 10 (sha1_hexdigest env (user_name s ++ ":" ++ name s)%string);
     jd_env := get_env env s;
     jd_args := get_args env s;
     jd_image := image (user_options s);
     jd_datacenters := datacenters (user_options s);
     jd_memory := memory (user_options s);
     jd_volume_data := volume_data |}.

Definition parse_url (svc : NomadService) : string :=
  ("/v1/jobs/parse?namespace=" ++ namespace svc)%string.

Definition register_request (job : Job) : JobRegisterRequest :=
  {| EnforceIndex := false;
     PreserveCounts := true;
     PolicyOverride := false;
     JobModifyIndex := 0;
     reg_Job := job |}.

(** The two halves of the [try] block of [start]: the volume, and what
    follows it. *)
Definition volume_id_of (env : Env) (s : Spawner) : string :=
  ("notebook-"
   ++ substring 0 10 (sha1_hexdigest env (user_name s ++ ":" ++ name s)))%string.

Definition volume_stage (env : Env) (nomad_service : NomadService) (s : Spawner)
    : M (option JobVolumeData) :=
  let opts := user_options s in
  if truthy (volume_type opts)
  then
    log "info" ("Configuring volume of type: " ++ py_str (volume_type opts))%string ;;
    if py_str (volume_type opts) =? "csi"
    then
      create_volume env nomad_service (volume_id_of env s) (volume_csi_plugin_id opts)
                    None None ;;
      ret (Some {| jv_type := "csi";
                   jv_destination := volume_destination opts;
                   jv_source := Some (volume_id_of env s) |})
    else if py_str (volume_type opts) =? "host"
    then ret (Some {| jv_type := "host";
                      jv_destination := volume_destination opts;
                      jv_source := volume_source opts |})
    else ret None
  else ret None.

Definition start_after_volume (env : Env) (nomad_service : NomadService) (fuel : nat)
    (s : Spawner) (volume_data : option JobVolumeData) : M (string * Z) :=
  returned <- schedule_job env nomad_service (create_job env (job_data_of env s volume_data)) ;;
  pair <- unpack2 returned ;;
  modify_self (set_job_id (Some (fst pair))) ;;
  modify_self (set_job_name (Some (snd pair))) ;;
  modify_self (set_notebook_id
                 (Some (substring 0 10
                          (sha1_hexdigest env (user_name s ++ ":" ++ name s)%string)))) ;;
  _ensure_running env nomad_service fuel ;;
  modify_self (set_service_name (Some (fst pair ++ "-notebook")%string)) ;;
  service env.

(** ** Sample replies, continued *)

(** A scheduler that answers [pending] twice, then [running]. *)
Definition slow_start_env : Env :=
  sample_env (ok tt) (ok sample_job) (ok tt)
             (fun n => match n with
                       | 0 | 1 => status_is "pending"
                       | _ => status_is "running"
                       end)
             (ok []) (ok tt) (fun _ => Healthy [node_at "10.0.0.7" 8888]).

(** A scheduler that answers [pending] once and is unreachable afterwards. *)
Definition lost_scheduler_env : Env :=
  sample_env (ok tt) (ok sample_job) (ok tt)
             (fun n => match n with
                       | 0 => status_is "pending"
                       | _ => Fails (TransportError "connection refused")
                       end)
             (ok []) (ok tt) (fun _ => Healthy []).

(** A scheduler that answers [pending] twice, then [dead]. *)
Definition dying_job_env : Env :=
  sample_env (ok tt) (ok sample_job) (ok tt)
             (fun n => match n with
                       | 0 | 1 => status_is "pending"
                       | _ => status_is "dead"
                       end)
             (ok []) (ok tt) (fun _ => Healthy []).

(** A registry in which the service appears at the third query. *)
Definition late_registry_env : Env :=
  sample_env (ok tt) (ok sample_job) (ok tt) (fun _ => status_is "running")
             (ok []) (ok tt)
             (fun n => match n with
                       | 0 => Healthy []
                       | 1 => HealthFails (TransportError "timeout")
                       | _ => Healthy [node_at "10.0.0.7" 8888; node_at "10.0.0.9" 8888]
                       end).

Definition csi_volume : UserOptions :=
  {| image := "org/image:tag";
     datacenters := ["dc1"];
     memory := 512;
     volume_type := Some "csi";
     volume_source := None;
     volume_destination := Some "/home/jovyan/work";
     volume_csi_plugin_id := Some "plugin-x" |}.

Definition nfs_volume : UserOptions :=
  {| image := "org/image:tag";
     datacenters := ["dc1"];
     memory := 512;
     volume_type := Some "nfs";
     volume_source := Some "/srv/share";
     volume_destination := Some "/home/jovyan/work";
     volume_csi_plugin_id := None |}.

Definition spawner_with (opts : UserOptions) : Spawner :=
  mkSpawner "alice" "lab" opts "token" None None None None
            false false false false.

(** A spawner revived from a state that held [job_id] only. *)
Definition job_only_spawner : Spawner :=
  mkSpawner "alice" "lab" no_volume "token"
            (Some "notebook-3f786850e3") None None None
            true false false false.

(** A scheduler that refuses to create the volume. *)
Definition no_volume_env : Env :=
  sample_env (http_error 500 "plugin plugin-x not found") (ok sample_job) (ok tt)
             (fun _ => status_is "running") (ok []) (ok tt)
             (fun _ => Healthy [node_at "10.0.0.7" 8888]).

Definition old_allocation : Allocation :=
  {| CreateTime := 1700000000; TaskStates := Some [("notebook", failed_task)] |}.

Definition new_allocation : Allocation :=
  {| CreateTime := 1700000600; TaskStates := Some [("notebook", running_task)] |}.

Definition tls_options : NomadOptions :=
  {| opt_nomad_addr := "https://nomad.example:4646";
     opt_nomad_token := "secret";
     opt_nomad_ca_cert := EmptyString;
     opt_nomad_ca_path := EmptyString;
     opt_nomad_client_cert := "client.pem";
     opt_nomad_client_key := "client.key";
     opt_nomad_tls_skip_verify := false;
     opt_nomad_tls_server_name := EmptyString |}.

(** * Properties *)

(** ** The monad *)

Lemma bind_return {A B} (m : M A) (k : A -> M B) w a w1 t1 :
  m w = (Return a, w1, t1) ->
  bind m k w = (fst (fst (k a w1)), snd (fst (k a w1)), t1 ++ snd (k a w1)).
Proof.
  intros H. unfold bind. rewrite H. destruct (k a w1) as [[o w2] t2]. reflexivity.
Qed.

Lemma bind_raise {A B} (m : M A) (k : A -> M B) w e w1 t1 :
  m w = (Raise e, w1, t1) -> bind m k w = (Raise e, w1, t1).
Proof. intros H. unfold bind. rewrite H. reflexivity. Qed.

Lemma bind_out_of_fuel {A B} (m : M A) (k : A -> M B) w w1 t1 :
  m w = (OutOfFuel, w1, t1) -> bind m k w = (OutOfFuel, w1, t1).
Proof. intros H. unfold bind. rewrite H. reflexivity. Qed.

(** ** create_volume *)

(** C8, as amended.  For every volume id and every response of the
    scheduler to the create call, [create_volume] raises if and only if the
    response is an error whose body contains neither the text
    [ErrorCode: "AccessPointAlreadyExists"] (with the [ErrorCode: ] prefix
    and the quotes) nor [volume external ID cannot be updated]. *)
Theorem create_volume_raises_iff env svc id plugin_id parameters min_size w resp :
  put_volume_create env (calls w) (create_volume_url svc id)
    (create_volume_request id plugin_id parameters min_size) = Answer resp ->
  is_raise (result (create_volume env svc id plugin_id parameters min_size w)) = true
  <-> (is_error resp = true
       /\ contains marker_access_point (text resp) = false
       /\ contains marker_external_id (text resp) = false).
Proof.
  intros H.
  unfold create_volume, bind, await, result.
  fold (create_volume_request id plugin_id parameters min_size).
  fold (create_volume_url svc id).
  rewrite H.
  destruct (is_error resp),
    (contains marker_access_point (text resp)),
    (contains marker_external_id (text resp)); cbn;
    (split; [intros F; try discriminate F; auto | intros (F1 & F2 & F3); auto; discriminate]).
Qed.

Lemma create_volume_raises_iff_witness :
  is_raise (result (create_volume
                      (sample_env (http_error 500 already_exists_body) (ok sample_job) (ok tt)
                                  (fun _ => status_is "running") (ok []) (ok tt)
                                  (fun _ => Healthy []))
                      sample_service "notebook-3f786850e3" (Some "plugin-x") None None
                      (mkWorld fresh_spawner 0))) = true
  <-> (is_error (mkResponse 500 already_exists_body (@None unit)) = true
       /\ contains marker_access_point already_exists_body = false
       /\ contains marker_external_id already_exists_body = false).
Proof.
  apply (create_volume_raises_iff
           (sample_env (http_error 500 already_exists_body) (ok sample_job) (ok tt)
                       (fun _ => status_is "running") (ok []) (ok tt)
                       (fun _ => Healthy []))
           sample_service "notebook-3f786850e3" (Some "plugin-x") None None
           (mkWorld fresh_spawner 0)).
  reflexivity.
Defined.

(** A second create call that meets the already-exists answer succeeds. *)
Example create_volume_second_call_succeeds :
  result (create_volume
            (sample_env (http_error 500 already_exists_body) (ok sample_job) (ok tt)
                        (fun _ => status_is "running") (ok []) (ok tt)
                        (fun _ => Healthy []))
            sample_service "notebook-3f786850e3" (Some "plugin-x") None None
            (mkWorld fresh_spawner 0))
  = Return tt.
Proof. reflexivity. Qed.

(** C8, as stated, fails: an error response whose body holds the bare word
    [AccessPointAlreadyExists] (without the [ErrorCode: ] prefix and the
    quotes) contains the first marker the claim names, and [create_volume]
    raises nevertheless. *)
Lemma create_volume_bare_marker_raises :
  let resp : Response unit := mkResponse 500 "AccessPointAlreadyExists" None in
  let env := sample_env (Answer resp) (ok sample_job) (ok tt)
                        (fun _ => status_is "running") (ok []) (ok tt)
                        (fun _ => Healthy []) in
  is_error resp = true
  /\ contains "AccessPointAlreadyExists" (text resp) = true
  /\ result (create_volume env sample_service "notebook-3f786850e3" (Some "plugin-x")
               None None (mkWorld fresh_spawner 0))
     = Raise (NomadException
                "Error registering volume. status code: 500, content: AccessPointAlreadyExists").
Proof. repeat split; reflexivity. Qed.

(** ** stop and clear_state *)

(** What [clear_state] leaves of a spawner: the three attributes it assigns
    exist afterwards, with the value [None]. *)
Lemma clear_state_run w :
  clear_state w
  = (Return tt,
     mkWorld (mkSpawner (user_name (self w)) (name (self w)) (user_options (self w))
                        EmptyString None None None (notebook_id (self w))
                        true true true (has_notebook_id (self w)))
             (calls w),
     []).
Proof. reflexivity. Qed.

(** [get_state] persists [notebook_id] and [load_state] restores it, while
    [clear_state] leaves it as it is. *)
Lemma clear_state_keeps_notebook_id w :
  notebook_id (final (clear_state w)) = notebook_id (self w)
  /\ has_notebook_id (final (clear_state w)) = has_notebook_id (self w).
Proof. split; reflexivity. Qed.

(** [stop] on a spawner whose [job_id] was never assigned: the read of the
    attribute raises inside the [try], the failure is logged, and no request
    is sent. *)
Lemma stop_without_job_id env svc w :
  has_job_id (self w) = false ->
  stop_with env svc w
  = (Return tt, w, [EvLog "error" "Failed to stop"; EvClose NomadClient]).
Proof.
  intros H.
  cbv [stop_with try_finally try_except bind read_attr log emit aclose].
  rewrite H. destruct w. reflexivity.
Qed.

(** C1, as amended.  For a spawner whose [job_id] is set, [stop], from its
    [try] statement on, sends one request, the deletion of the job named by
    [job_id], and always returns normally.  When the delete call succeeds,
    [job_id], [job_name] and [service_name] are cleared before it returns
    and nothing is logged; when the delete call fails (an error response or
    a failure of the transport), the failure is logged and the spawner is
    left as it was.  The client is closed in both cases. *)
Theorem stop_clears_identity_after_successful_delete env svc w :
  has_job_id (self w) = true ->
  result (stop_with env svc w) = Return tt
  /\ match delete_job_call env (calls w) (job_url svc (job_id (self w))) None with
     | Answer resp =>
         if is_error resp
         then final (stop_with env svc w) = self w
              /\ trace (stop_with env svc w)
                 = [ EvDeleteJob (job_url svc (job_id (self w))) None (Answer resp);
                     EvLog "error" "Failed to stop";
                     EvClose NomadClient ]
         else job_id (final (stop_with env svc w)) = None
              /\ job_name (final (stop_with env svc w)) = None
              /\ service_name (final (stop_with env svc w)) = None
              /\ trace (stop_with env svc w)
                 = [ EvDeleteJob (job_url svc (job_id (self w))) None (Answer resp);
                     EvClose NomadClient ]
     | Fails e =>
         final (stop_with env svc w) = self w
         /\ trace (stop_with env svc w)
            = [ EvDeleteJob (job_url svc (job_id (self w))) None (Fails e);
                EvLog "error" "Failed to stop";
                EvClose NomadClient ]
     end.
Proof.
  intros H.
  cbv [stop_with try_finally try_except bind read_attr delete_job await result final
       trace].
  rewrite H. fold (job_url svc (job_id (self w))).
  destruct (delete_job_call env (calls w) (job_url svc (job_id (self w))) None)
    as [resp | e]; cbn.
  - destruct (is_error resp); cbn; auto.
  - auto.
Qed.

Lemma stop_clears_identity_after_successful_delete_witness :
  result (stop_with
            (sample_env (ok tt) (ok sample_job) (ok tt) (fun _ => status_is "running")
                        (ok []) (ok tt) (fun _ => Healthy []))
            sample_service (mkWorld started_spawner 0))
  = Return tt
  /\ job_id (final (stop_with
                      (sample_env (ok tt) (ok sample_job) (ok tt)
                                  (fun _ => status_is "running") (ok []) (ok tt)
                                  (fun _ => Healthy []))
                      sample_service (mkWorld started_spawner 0))) = None
     /\ job_name (final (stop_with
                           (sample_env (ok tt) (ok sample_job) (ok tt)
                                       (fun _ => status_is "running") (ok []) (ok tt)
                                       (fun _ => Healthy []))
                           sample_service (mkWorld started_spawner 0))) = None
     /\ service_name (final (stop_with
                               (sample_env (ok tt) (ok sample_job) (ok tt)
                                           (fun _ => status_is "running") (ok []) (ok tt)
                                           (fun _ => Healthy []))
                               sample_service (mkWorld started_spawner 0))) = None
     /\ trace (stop_with
                 (sample_env (ok tt) (ok sample_job) (ok tt)
                             (fun _ => status_is "running") (ok []) (ok tt)
                             (fun _ => Healthy []))
                 sample_service (mkWorld started_spawner 0))
        = [ EvDeleteJob (job_url sample_service (Some "notebook-3f786850e3")) None (ok tt);
            EvClose NomadClient ].
Proof.
  exact (@stop_clears_identity_after_successful_delete
           (sample_env (ok tt) (ok sample_job) (ok tt) (fun _ => status_is "running")
                       (ok []) (ok tt) (fun _ => Healthy []))
           sample_service (mkWorld started_spawner 0) eq_refl).
Defined.

(** After a successful delete, [notebook_id] is still set. *)
Example stop_keeps_notebook_id_after_delete :
  let env := sample_env (ok tt) (ok sample_job) (ok tt) (fun _ => status_is "running")
                        (ok []) (ok tt) (fun _ => Healthy []) in
  final (stop_with env sample_service (mkWorld started_spawner 0))
  = mkSpawner "alice" "lab" no_volume EmptyString None None None (Some "3f786850e3")
              true true true true.
Proof. reflexivity. Qed.

(** C1, as stated, fails: the delete call is answered with an error, [stop]
    returns, and the four identity fields are still set. *)
Lemma stop_keeps_identity_when_delete_fails :
  let env := sample_env (ok tt) (ok sample_job) (ok tt) (fun _ => status_is "running")
                        (ok []) (http_error 500 "job deletion failed")
                        (fun _ => Healthy []) in
  let r := stop_with env sample_service (mkWorld started_spawner 0) in
  result r = Return tt
  /\ final r = started_spawner
  /\ ~ identity_cleared (final r).
Proof.
  cbv zeta. repeat split.
  intros (F & _). discriminate F.
Qed.

(** ** poll *)

(** C6, at the failing input: [poll] builds its Nomad service without the
    [namespace] attribute that the class requires, before entering the
    [try]; the [TypeError] of the initialiser leaves [poll], whatever the
    scheduler would answer. *)
Theorem poll_raises_TypeError env w :
  poll env w = (Raise (TypeError "__init__() missing 1 required positional argument: 'namespace'"),
     w, []).
Proof. reflexivity. Qed.

(** The same call opens [start] and [stop]. *)
Lemma start_raises_TypeError env fuel w :
  start env fuel w = (Raise (TypeError "__init__() missing 1 required positional argument: 'namespace'"),
     w, []).
Proof. reflexivity. Qed.

Lemma stop_raises_TypeError env w :
  stop env w = (Raise (TypeError "__init__() missing 1 required positional argument: 'namespace'"),
     w, []).
Proof. reflexivity. Qed.

Lemma keeps_self_of_job_status env svc job w :
  self (snd (fst (job_status env svc job w))) = self w.
Proof.
  unfold job_status, bind, await.
  destruct (get_job env (calls w) _) as [resp | e]; cbn; [ | reflexivity].
  destruct (is_error resp); cbn; [reflexivity | ].
  unfold json_of. destruct (json resp); reflexivity.
Qed.

(** From its [try] statement on, [poll] does not raise.  With [job_id] set:
    [None] when the status is [running]; when it is another one, the status
    if [job_name] is set and [-1] if not (the warning reads it); [-1] when
    the status query raised.  With [job_id] never assigned: [-1]. *)
Lemma poll_with_result env svc w :
  result (poll_with env svc w)
  = if has_job_id (self w)
    then match result (job_status env svc (job_id (self w)) w) with
         | Return status =>
             if status =? "running" then Return PollNone
             else if has_job_name (self w) then Return (PollStatus status)
                  else Return (PollInt (-1))
         | Raise _ => Return (PollInt (-1))
         | OutOfFuel => OutOfFuel
         end
    else Return (PollInt (-1)).
Proof.
  unfold poll_with, try_finally, try_except, bind, read_attr, result.
  destruct (has_job_id (self w)); [ | reflexivity].
  pose proof (keeps_self_of_job_status env svc (job_id (self w)) w) as K.
  destruct (job_status env svc (job_id (self w)) w) as [[o w1] t1].
  cbn [fst snd] in K.
  destruct o as [status | e | ]; cbn.
  - destruct (status =? "running"); [reflexivity | ].
    cbn. rewrite K. destruct (has_job_name (self w)); reflexivity.
  - reflexivity.
  - reflexivity.
Qed.

Lemma job_status_terminates env svc job w :
  result (job_status env svc job w) <> OutOfFuel.
Proof.
  unfold job_status, bind, await, result.
  destruct (get_job env (calls w) _) as [resp | e]; cbn; [ | discriminate].
  destruct (is_error resp); cbn; [discriminate | ].
  unfold json_of. destruct (json resp); cbn; discriminate.
Qed.

Lemma poll_with_never_raises env svc w :
  exists v, result (poll_with env svc w) = Return v.
Proof.
  rewrite poll_with_result.
  destruct (has_job_id (self w)); [ | eauto].
  pose proof (job_status_terminates env svc (job_id (self w)) w) as T.
  destruct (result (job_status env svc (job_id (self w)) w)) as [status | e | ].
  - destruct (status =? "running"); [eauto | ].
    destruct (has_job_name (self w)); eauto.
  - eauto.
  - contradiction.
Qed.

(** ** schedule_job and the start of a job *)

Lemma schedule_job_returns_job_id env svc job_hcl w parsed job registered :
  post_jobs_parse env (calls w) ("/v1/jobs/parse?namespace=" ++ namespace svc)%string job_hcl
    = Answer parsed ->
  is_error parsed = false ->
  json parsed = Some job ->
  post_jobs env (S (calls w)) "/v1/jobs"
    {| EnforceIndex := false; PreserveCounts := true; PolicyOverride := false;
       JobModifyIndex := 0; reg_Job := job |} = Answer registered ->
  is_error registered = false ->
  result (schedule_job env svc job_hcl w) = Return (ID job).
Proof.
  intros Hp He Hj Hr He'.
  cbv [schedule_job bind await log emit json_of result ret].
  rewrite Hp. cbv beta iota. rewrite He, Hj. cbn [calls self].
  rewrite Hr. cbv beta iota. rewrite He'. reflexivity.
Qed.

Lemma unpack2_length s w p :
  result (unpack2 s w) = Return p -> String.length s = 2.
Proof.
  destruct s as [ | a [ | b [ | c s]]]; cbn; intros H; try discriminate H.
  reflexivity.
Qed.

(** An id of two characters is split into its characters. *)
Example start_splits_a_two_letter_id :
  result (start_with short_id_env sample_service 10 (mkWorld fresh_spawner 0))
  = Return ("10.0.0.7", 8888%Z)
  /\ job_id (final (start_with short_id_env sample_service 10 (mkWorld fresh_spawner 0)))
     = Some "n"
  /\ job_name (final (start_with short_id_env sample_service 10 (mkWorld fresh_spawner 0)))
     = Some "b"
  /\ service_name (final (start_with short_id_env sample_service 10
                            (mkWorld fresh_spawner 0)))
     = Some "n-notebook".
Proof. repeat split. Qed.

(** C2, at the failing input: the job is parsed and registered, and
    [schedule_job] returns the job id alone, a [str]; [start] unpacks that
    string as if it were a pair, which raises [ValueError] for an id that is
    not two characters long, and neither [job_id] nor [job_name] is set. *)
Theorem start_cannot_unpack_the_job_id :
  let env := sample_env (ok tt) (ok sample_job) (ok tt) (fun _ => status_is "running")
                        (ok []) (ok tt) (fun _ => Healthy [node_at "10.0.0.7" 8888]) in
  let w := mkWorld fresh_spawner 0 in
  result (schedule_job env sample_service "job 3f786850e3" w) = Return "notebook-3f786850e3"
  /\ result (start_with env sample_service 10 w)
     = Raise (ValueError "too many values to unpack (expected 2)")
  /\ job_id (final (start_with env sample_service 10 w)) = None
  /\ job_name (final (start_with env sample_service 10 w)) = None.
Proof. cbv zeta. repeat split. Qed.

(** ** task_status *)

Lemma task_loop_all_running tasks :
  all_running tasks -> task_loop tasks = "running".
Proof.
  induction 1 as [ | [n task] rest Hrun _ IH]; [reflexivity | ].
  cbn in Hrun. cbn [task_loop]. rewrite Hrun. cbn. exact IH.
Qed.

(** The loop answers [dead] for a failed task when every task before it is
    running. *)
Lemma task_loop_failed_after_running before n task rest :
  all_running before ->
  State task = "dead" -> Failed task = true ->
  task_loop (before ++ (n, task) :: rest) = "dead".
Proof.
  intros Hrun Hs Hf.
  induction Hrun as [ | [m t] before' Ht _ IH].
  - cbn [app task_loop]. rewrite Hs, Hf. reflexivity.
  - cbn in Ht. cbn [app task_loop]. rewrite Ht. cbn. exact IH.
Qed.

(** A task that is not running and is not both dead and failed ends the
    loop: the tasks after it are not looked at. *)
Lemma task_loop_stops_at_first_not_running n task rest :
  (State task =? "running") = false ->
  (State task =? "dead") && Failed task = false ->
  task_loop ((n, task) :: rest) = _get_task_state_from_event task.
Proof.
  intros Hr Hd. cbn [task_loop]. rewrite Hd, Hr. reflexivity.
Qed.

(** When the allocations are listed and the latest one has tasks,
    [task_status] is the answer of the loop over them. *)
Lemma task_status_of_latest env svc job w resp alloc others task tasks :
  get_allocations env (calls w) (allocations_url svc job) = Answer resp ->
  json resp = Some (alloc :: others) ->
  TaskStates (max_from CreateTime alloc others) = Some (task :: tasks) ->
  result (task_status env svc job w) = Return (task_loop (task :: tasks)).
Proof.
  intros Hg Hj Ht.
  cbv [task_status bind await json_of result ret response_truth allocation_truth
       py_max negb].
  fold (allocations_url svc job).
  rewrite Hg. cbv beta iota. rewrite Hj. cbv beta iota. rewrite Ht. reflexivity.
Qed.

(** C3, at the failing input: the latest allocation has a prestart task
    that has finished (dead, not failed) followed by the notebook task, which
    is dead and failed; the loop returns at the first task, which is not
    running, and [task_status] answers [pending], not [dead]. *)
Theorem task_status_misses_later_failed_task :
  let allocs :=
    [ {| CreateTime := 1700000000;
         TaskStates := Some [("init", finished_task); ("notebook", failed_task)] |} ] in
  let env := sample_env (ok tt) (ok sample_job) (ok tt) (fun _ => status_is "dead")
                        (ok allocs) (ok tt) (fun _ => Healthy []) in
  State failed_task = "dead" /\ Failed failed_task = true
  /\ result (task_status env sample_service "notebook-3f786850e3"
               (mkWorld started_spawner 0)) = Return "pending".
Proof. cbv zeta. repeat split. Qed.

(** The order of the tasks decides: with the failed task first the answer
    is [dead], and a pending task before it hides it as well. *)
Example task_loop_depends_on_order :
  task_loop [("notebook", failed_task); ("init", finished_task)] = "dead"
  /\ task_loop [("init", finished_task); ("notebook", failed_task)] = "pending"
  /\ task_loop [("prestart", pending_task); ("notebook", failed_task)] = "pending"
  /\ task_loop [("sidecar", running_task); ("notebook", failed_task)] = "dead".
Proof. repeat split. Qed.

(** C5, at the failing input: the allocations query is answered with an
    empty list; the response object is true, the list is decoded, and [max]
    over it raises [ValueError]. *)
Theorem task_status_raises_on_empty_allocations :
  let env := sample_env (ok tt) (ok sample_job) (ok tt) (fun _ => status_is "pending")
                        (ok []) (ok tt) (fun _ => Healthy []) in
  result (task_status env sample_service "notebook-3f786850e3"
            (mkWorld started_spawner 0))
  = Raise (ValueError "max() arg is an empty sequence").
Proof. reflexivity. Qed.

(** The same for every environment and every status code of the response. *)
Lemma task_status_empty_allocations env svc job w resp :
  get_allocations env (calls w) (allocations_url svc job) = Answer resp ->
  json resp = Some [] ->
  result (task_status env svc job w) = Raise (ValueError "max() arg is an empty sequence").
Proof.
  intros Hg Hj.
  cbv [task_status bind await json_of result ret response_truth allocation_truth
       py_max negb].
  fold (allocations_url svc job).
  rewrite Hg. cbv beta iota. rewrite Hj. reflexivity.
Qed.

(** ** _ensure_running *)

(** C10, at the failing input: the first status query fails; the exception
    is caught and logged, and the comparison that follows reads [status],
    to which nothing was assigned: [_ensure_running] raises
    [UnboundLocalError] instead of polling again, and [start] fails. *)
Theorem ensure_running_reads_unbound_status :
  let env := sample_env (ok tt) (ok sample_job) (ok tt)
                        (fun n => match n with
                                  | 0 => Fails (TransportError "connection reset")
                                  | _ => status_is "running"
                                  end)
                        (ok []) (ok tt) (fun _ => Healthy [node_at "10.0.0.7" 8888]) in
  _ensure_running env sample_service 10 (mkWorld started_spawner 0)
  = (Raise (UnboundLocalError "status"),
     mkWorld started_spawner 1,
     [ EvGetJob "/v1/job/notebook-3f786850e3?namespace=default"
         (Fails (TransportError "connection reset"));
       EvLog "error" "Failed to get job status" ]).
Proof. reflexivity. Qed.

(** The same for every environment: whenever the first status query raises,
    the loop raises [UnboundLocalError]. *)
Lemma ensure_running_first_query_raises env svc fuel w e w1 t1 :
  job_status env svc (job_id (self w)) w = (Raise e, w1, t1) ->
  result (_ensure_running env svc (S fuel) w) = Raise (UnboundLocalError "status").
Proof.
  intros H.
  cbv [_ensure_running _ensure_running_loop bind try_except get_self result log emit ret
       raise].
  rewrite H. reflexivity.
Qed.

(** A query that fails after a first successful one is tolerated: the loop
    goes on with the status it read before. *)
Example ensure_running_tolerates_later_failure :
  let env := sample_env (ok tt) (ok sample_job) (ok tt)
                        (fun n => match n with
                                  | 0 => status_is "pending"
                                  | 1 => Fails (TransportError "connection reset")
                                  | _ => status_is "running"
                                  end)
                        (ok []) (ok tt) (fun _ => Healthy []) in
  result (_ensure_running env sample_service 10 (mkWorld started_spawner 0)) = Return tt.
Proof. reflexivity. Qed.

(** ** service *)

Lemma service_attempt_run env w :
  service_attempt env w
  = match health_service env (calls w) (service_name (self w)) with
    | Healthy [] =>
        (Raise (IndexError "list index out of range"),
         mkWorld (self w) (S (calls w)),
         [service_log (self w); EvHealthService (service_name (self w)) (Healthy [])])
    | Healthy (node :: rest) =>
        (Return (Address (Service node), Port (Service node)),
         mkWorld (self w) (S (calls w)),
         [service_log (self w);
          EvHealthService (service_name (self w)) (Healthy (node :: rest))])
    | HealthFails e =>
        (Raise e,
         mkWorld (self w) (S (calls w)),
         [service_log (self w); EvHealthService (service_name (self w)) (HealthFails e)])
    end.
Proof.
  cbv [service_attempt bind get_self log emit await_health service_log ret raise].
  destruct (health_service env (calls w) (service_name (self w))) as [[ | node rest] | e];
    reflexivity.
Qed.

(** C4, at the failing input: the registry answers with two healthy
    instances; [service] returns the address and port of the first one on
    its first attempt and raises nothing. *)
Theorem service_returns_first_of_two_instances :
  let env := sample_env (ok tt) (ok sample_job) (ok tt) (fun _ => status_is "running")
                        (ok []) (ok tt)
                        (fun _ => Healthy [node_at "10.0.0.7" 8888; node_at "10.0.0.9" 8888]) in
  service env (mkWorld started_spawner 0)
  = (Return ("10.0.0.7", 8888%Z),
     mkWorld started_spawner 1,
     [ service_log started_spawner;
       EvHealthService (Some "notebook-3f786850e3-notebook")
         (Healthy [node_at "10.0.0.7" 8888; node_at "10.0.0.9" 8888]) ]).
Proof. reflexivity. Qed.

(** The sibling lookup in the Nomad client refuses the same answer. *)
Example get_service_address_refuses_two_instances :
  let two := [ {| srv_Address := "10.0.0.7"; srv_Port := 8888 |};
               {| srv_Address := "10.0.0.9"; srv_Port := 8888 |} ] in
  let env :=
    {| put_volume_create := fun _ _ _ => ok tt;
       post_volume_delete := fun _ _ => ok tt;
       post_jobs_parse := fun _ _ _ => ok sample_job;
       post_jobs := fun _ _ _ => ok tt;
       get_job := fun _ _ => status_is "running";
       get_allocations := fun _ _ => ok [];
       delete_job_call := fun _ _ _ => ok tt;
       get_service := fun _ _ => ok two;
       health_service := fun _ _ => Healthy [];
       sha1_hexdigest := fun s => s;
       get_env := fun _ => [];
       get_args := fun _ => [];
       create_job := fun _ => "job" |} in
  result (get_service_address env sample_service "notebook-3f786850e3-notebook"
            (mkWorld started_spawner 0))
  = Raise (NomadException "Multiple services found for notebook-3f786850e3-notebook").
Proof. reflexivity. Qed.

(** C7, as amended.  When every answer of the registry is the empty list,
    [service] makes five attempts, sleeps three seconds between two attempts,
    and then fails with the [RetryError] of the retry wrapper, which carries
    the [IndexError] of reading the first instance of an empty answer.  When
    the first answer holds exactly one healthy instance, [service] returns
    its address and port on the first attempt, without sleeping. *)
Theorem service_retry_policy env w :
  ((forall n service_name_, health_service env n service_name_ = Healthy []) ->
   let attempt := [ service_log (self w);
                    EvHealthService (service_name (self w)) (Healthy []) ] in
   result (service env w) = Raise (RetryError (IndexError "list index out of range"))
   /\ trace (service env w)
      = attempt ++ EvSleep 3 :: attempt ++ EvSleep 3 :: attempt ++ EvSleep 3
          :: attempt ++ EvSleep 3 :: attempt)
  /\ (forall node,
        health_service env (calls w) (service_name (self w)) = Healthy [node] ->
        service env w
        = (Return (Address (Service node), Port (Service node)),
           mkWorld (self w) (S (calls w)),
           [ service_log (self w);
             EvHealthService (service_name (self w)) (Healthy [node]) ])).
Proof.
  split.
  - intros H.
    cbv [service retry retrying try_except bind sleep emit raise Nat.sub result trace].
    repeat (rewrite service_attempt_run, H; cbn [self calls]; cbv beta iota).
    split; reflexivity.
  - intros node H.
    cbv [service retry retrying try_except Nat.sub].
    rewrite service_attempt_run, H. reflexivity.
Qed.

Lemma service_retry_policy_witness :
  (result (service (sample_env (ok tt) (ok sample_job) (ok tt) (fun _ => status_is "running")
                               (ok []) (ok tt) (fun _ => Healthy []))
                   (mkWorld started_spawner 0))
   = Raise (RetryError (IndexError "list index out of range")))
  /\ result (service (sample_env (ok tt) (ok sample_job) (ok tt)
                                 (fun _ => status_is "running") (ok []) (ok tt)
                                 (fun _ => Healthy [node_at "10.0.0.7" 8888]))
                     (mkWorld started_spawner 0))
     = Return ("10.0.0.7", 8888%Z).
Proof.
  split.
  - apply (service_retry_policy
             (sample_env (ok tt) (ok sample_job) (ok tt) (fun _ => status_is "running")
                         (ok []) (ok tt) (fun _ => Healthy []))
             (mkWorld started_spawner 0)).
    reflexivity.
  - rewrite (proj2 (service_retry_policy
                      (sample_env (ok tt) (ok sample_job) (ok tt)
                                  (fun _ => status_is "running") (ok []) (ok tt)
                                  (fun _ => Healthy [node_at "10.0.0.7" 8888]))
                      (mkWorld started_spawner 0))
                   (node_at "10.0.0.7" 8888)).
    + reflexivity.
    + reflexivity.
Defined.

(** C7, as stated, fails: with every answer of the registry empty, what
    leaves [service] is no "not found" error.  It is a [RetryError] around an
    [IndexError] whose message is [list index out of range]; it is not the
    [NomadException] with which the lookup of the Nomad client,
    [get_service_address], reports an empty answer as [... not found]. *)
Lemma service_failure_is_not_a_not_found_error :
  let env := sample_env (ok tt) (ok sample_job) (ok tt) (fun _ => status_is "running")
                        (ok []) (ok tt) (fun _ => Healthy []) in
  (forall n service_name_, health_service env n service_name_ = Healthy [])
  /\ result (service env (mkWorld started_spawner 0))
     = Raise (RetryError (IndexError "list index out of range"))
  /\ (forall msg, result (service env (mkWorld started_spawner 0))
                  <> Raise (NomadException msg))
  /\ contains "not found" "list index out of range" = false
  /\ result (get_service_address env sample_service "notebook-3f786850e3-notebook"
               (mkWorld started_spawner 0))
     = Raise (NomadException "Service notebook-3f786850e3-notebook not found").
Proof.
  cbv zeta. split; [reflexivity | ]. split; [reflexivity | ].
  split; [intros msg; discriminate | ]. split; reflexivity.
Qed.

(** The wrapper never makes more attempts than allowed: at most
    [attempts_left + 1] registry queries, whatever the registry answers. *)
Lemma retrying_bounds_attempts env attempts_left w :
  length (filter is_registry_query (trace (retrying 3 attempts_left (service_attempt env) w)))
  <= S attempts_left.
Proof.
  revert w. induction attempts_left as [ | k IH]; intros w.
  - cbv [retrying try_except trace]. rewrite service_attempt_run.
    destruct (health_service env (calls w) (service_name (self w))) as [[ | node rest] | e];
      cbn; lia.
  - cbn [retrying]. unfold try_except at 1. rewrite service_attempt_run.
    destruct (health_service env (calls w) (service_name (self w))) as [[ | node rest] | e];
      cbn [trace snd]; try (cbn; lia).
    + unfold bind at 1. cbn [sleep emit].
      specialize (IH (mkWorld (self w) (S (calls w)))).
      unfold trace in IH.
      destruct (retrying 3 k (service_attempt env) (mkWorld (self w) (S (calls w))))
        as [[o w2] t2].
      cbn in IH |- *. lia.
    + unfold bind at 1. cbn [sleep emit].
      specialize (IH (mkWorld (self w) (S (calls w)))).
      unfold trace in IH.
      destruct (retrying 3 k (service_attempt env) (mkWorld (self w) (S (calls w))))
        as [[o w2] t2].
      cbn in IH |- *. lia.
Qed.

(** ** Ordering of the remote calls of start *)

Section Ordering.

Variable env : Env.

Lemma registry_after_running_seen t : registry_after_running true t = true.
Proof.
  induction t as [ | e t IH]; [reflexivity | ].
  cbn. rewrite IH. destruct (is_registry_query e); reflexivity.
Qed.

Lemma registry_after_running_app seen t1 t2 :
  registry_after_running seen (t1 ++ t2)
  = registry_after_running seen t1
    && registry_after_running (seen || existsb reports_running t1) t2.
Proof.
  revert seen. induction t1 as [ | e t1 IH]; intros seen.
  - cbn. rewrite orb_false_r. reflexivity.
  - cbn [app registry_after_running existsb]. rewrite IH.
    rewrite <- andb_assoc, orb_assoc. reflexivity.
Qed.

Lemma registry_after_running_quiet seen t :
  existsb is_registry_query t = false -> registry_after_running seen t = true.
Proof.
  revert seen. induction t as [ | e t IH]; intros seen H; [reflexivity | ].
  cbn in H. apply orb_false_elim in H. destruct H as [He Ht].
  cbn. rewrite He. cbn. apply IH, Ht.
Qed.

Lemma quiet_ordered {A} (m : M A) : quiet m -> ordered m.
Proof. intros H w. apply registry_after_running_quiet, H. Qed.

Lemma quiet_ret {A} (a : A) : quiet (ret a).
Proof. intros w. reflexivity. Qed.

Lemma quiet_raise {A} e : quiet (@raise A e).
Proof. intros w. reflexivity. Qed.

Lemma quiet_get_self : quiet get_self.
Proof. intros w. reflexivity. Qed.

Lemma quiet_modify_self f : quiet (modify_self f).
Proof. intros w. reflexivity. Qed.

Lemma quiet_log level msg : quiet (log level msg).
Proof. intros w. reflexivity. Qed.

Lemma quiet_sleep n : quiet (sleep n).
Proof. intros w. reflexivity. Qed.

Lemma quiet_aclose c : quiet (aclose c).
Proof. intros w. reflexivity. Qed.

Lemma quiet_json_of {A} (r : Response A) : quiet (json_of r).
Proof. intros w. unfold json_of. destruct (json r); reflexivity. Qed.

Lemma quiet_await {A} (r : nat -> reply A) (ev : reply A -> Event) :
  (forall x, is_registry_query (ev x) = false) -> quiet (await r ev).
Proof.
  intros H w. unfold await, trace. destruct (r (calls w)); cbn; rewrite H; reflexivity.
Qed.

Lemma quiet_bind {A B} (m : M A) (k : A -> M B) :
  quiet m -> (forall a, quiet (k a)) -> quiet (bind m k).
Proof.
  intros Hm Hk w. specialize (Hm w). unfold bind, trace in *.
  destruct (m w) as [[[a | e | ] w1] t1]; cbn in Hm |- *; auto.
  specialize (Hk a w1). unfold trace in Hk.
  destruct (k a w1) as [[o w2] t2]. cbn in Hk |- *.
  rewrite existsb_app, Hm, Hk. reflexivity.
Qed.

Lemma quiet_try_except {A} (m : M A) (h : exn -> M A) :
  quiet m -> (forall e, quiet (h e)) -> quiet (try_except m h).
Proof.
  intros Hm Hh w. specialize (Hm w). unfold try_except, trace in *.
  destruct (m w) as [[[a | e | ] w1] t1]; cbn in Hm |- *; auto.
  specialize (Hh e w1). unfold trace in Hh.
  destruct (h e w1) as [[o w2] t2]. cbn in Hh |- *.
  rewrite existsb_app, Hm, Hh. reflexivity.
Qed.

Lemma quiet_if {A} (b : bool) (m1 m2 : M A) :
  quiet m1 -> quiet m2 -> quiet (if b then m1 else m2).
Proof. destruct b; auto. Qed.

Create HintDb quiet.
#[local] Hint Resolve quiet_ret quiet_raise quiet_get_self quiet_modify_self quiet_log
  quiet_sleep quiet_aclose quiet_json_of quiet_bind quiet_try_except quiet_if : quiet.

Ltac quiet_await := apply quiet_await; intros x; reflexivity.

Ltac quiet_steps :=
  repeat first
    [ quiet_await
    | apply quiet_bind; [ | intros ? ]
    | apply quiet_if
    | solve [ auto with quiet ] ].

Lemma quiet_create_volume svc id plugin_id parameters min_size :
  quiet (create_volume env svc id plugin_id parameters min_size).
Proof. unfold create_volume. quiet_steps. Qed.

Lemma quiet_schedule_job svc job_hcl : quiet (schedule_job env svc job_hcl).
Proof. unfold schedule_job. quiet_steps. Qed.

Lemma quiet_job_status svc job : quiet (job_status env svc job).
Proof. unfold job_status. quiet_steps. Qed.

Lemma quiet_unpack2 s : quiet (unpack2 s).
Proof.
  destruct s as [ | a [ | b [ | c s]]]; cbn; auto with quiet.
Qed.

Lemma quiet_ensure_running_loop svc status fuel :
  quiet (_ensure_running_loop env svc status fuel).
Proof.
  revert status. induction fuel as [ | fuel IH]; intros status.
  - intros w. reflexivity.
  - cbn [_ensure_running_loop].
    apply quiet_bind; [auto with quiet | intros s].
    apply quiet_bind.
    + apply quiet_try_except; [ | intros e; quiet_steps ].
      apply quiet_bind; [apply quiet_job_status | auto with quiet].
    + intros [st | ]; [ | auto with quiet].
      repeat apply quiet_if; auto with quiet.
Qed.

(** What a run of [job_status] is. *)
Lemma job_status_run svc job w :
  job_status env svc job w
  = let w' := mkWorld (self w) (S (calls w)) in
    match get_job env (calls w) (job_url svc job) with
    | Answer resp =>
        if is_error resp
        then (Raise (NomadException ("Error getting job status: " ++ text resp)%string),
              w', [EvGetJob (job_url svc job) (Answer resp)])
        else match json resp with
             | Some detail =>
                 (Return (match Status detail with
                          | Some s => s
                          | None => EmptyString
                          end),
                  w', [EvGetJob (job_url svc job) (Answer resp)])
             | None => (Raise JSONDecodeError, w', [EvGetJob (job_url svc job) (Answer resp)])
             end
    | Fails e => (Raise e, w', [EvGetJob (job_url svc job) (Fails e)])
    end.
Proof.
  cbv [job_status bind await json_of ret raise].
  fold (job_url svc job).
  destruct (get_job env (calls w) (job_url svc job)) as [resp | e]; [ | reflexivity].
  cbv zeta. destruct (is_error resp) eqn:E; [reflexivity | ].
  destruct (json resp); reflexivity.
Qed.

(** A status query that returns [running] leaves an event in which the
    scheduler reports [running]. *)
Lemma job_status_running_reported svc job w w1 t1 :
  job_status env svc job w = (Return "running", w1, t1) ->
  existsb reports_running t1 = true.
Proof.
  rewrite job_status_run. cbv zeta.
  destruct (get_job env (calls w) (job_url svc job)) as [resp | e]; [ | discriminate].
  destruct (is_error resp) eqn:E; [discriminate | ].
  destruct (json resp) as [[[s | ]] | ] eqn:J; try discriminate.
  intros H. injection H as Hs _ Ht. subst t1 s.
  cbn. rewrite E, J. reflexivity.
Qed.

(** When the awaiting loop returns, the scheduler has reported [running]
    during it; [status] is the value the loop starts with, which is never
    [running] (the loop would have been left). *)
Lemma ensure_running_loop_return svc status fuel w w1 t1 :
  status <> Some "running" ->
  _ensure_running_loop env svc status fuel w = (Return tt, w1, t1) ->
  existsb reports_running t1 = true.
Proof.
  revert status w w1 t1. induction fuel as [ | fuel IH]; intros status w w1 t1 Hs.
  - cbn. discriminate.
  - cbn [_ensure_running_loop].
    cbv [bind get_self try_except ret log emit sleep raise].
    destruct (job_status env svc (job_id (self w)) w) as [[[st | e | ] w2] t2] eqn:J.
    + destruct (st =? "running") eqn:R.
      * apply String.eqb_eq in R. subst st.
        intros H. injection H as _ Ht. subst t1.
        rewrite !app_nil_r.
        apply (job_status_running_reported _ _ _ J).
      * destruct (st =? "dead"); [discriminate | ].
        destruct (_ensure_running_loop env svc (Some st) fuel w2) as [[o w3] t3] eqn:L.
        intros H. injection H as Ho _ Ht. subst o t1.
        rewrite ?existsb_app. cbn [existsb reports_running orb].
        rewrite (IH (Some st) w2 w3 t3); [rewrite ?orb_true_r; reflexivity | | exact L].
        intros F. injection F as F. subst st. discriminate R.
    + destruct status as [st | ]; [ | discriminate].
      destruct (st =? "running") eqn:R.
      * apply String.eqb_eq in R. subst st. contradiction Hs. reflexivity.
      * destruct (st =? "dead"); [discriminate | ].
        destruct (_ensure_running_loop env svc (Some st) fuel w2) as [[o w3] t3] eqn:L.
        intros H. injection H as Ho _ Ht. subst o t1.
        rewrite ?existsb_app. cbn [existsb reports_running orb].
        rewrite (IH (Some st) w2 w3 t3); [rewrite ?orb_true_r; reflexivity | | exact L].
        intros F. injection F as F. subst st. discriminate R.
    + discriminate.
Qed.

Lemma ordered_bind_quiet {A B} (m : M A) (k : A -> M B) :
  quiet m -> (forall a, ordered (k a)) -> ordered (bind m k).
Proof.
  intros Hm Hk w. specialize (Hm w). unfold bind, trace in *.
  destruct (m w) as [[[a | e | ] w1] t1]; cbn in Hm |- *;
    try (apply registry_after_running_quiet; exact Hm).
  specialize (Hk a w1). unfold trace in Hk.
  destruct (k a w1) as [[o w2] t2]. cbn in Hk |- *.
  rewrite registry_after_running_app, (registry_after_running_quiet _ _ Hm).
  cbn. destruct (existsb reports_running t1);
    [apply registry_after_running_seen | exact Hk].
Qed.

(** Whatever follows the awaiting loop is ordered. *)
Lemma ordered_after_ensure_running {B} svc fuel (k : unit -> M B) :
  ordered (bind (_ensure_running env svc fuel) k).
Proof.
  intros w. unfold bind, trace, _ensure_running.
  pose proof (quiet_ensure_running_loop svc None fuel w) as Q. unfold trace in Q.
  destruct (_ensure_running_loop env svc None fuel w) as [[[[] | e | ] w1] t1] eqn:L;
    cbn in Q |- *; try (apply registry_after_running_quiet; exact Q).
  destruct (k tt w1) as [[o w2] t2]. cbn.
  rewrite registry_after_running_app, (registry_after_running_quiet _ _ Q).
  rewrite (@ensure_running_loop_return svc None fuel w w1 t1); [ | discriminate | exact L].
  apply registry_after_running_seen.
Qed.

Lemma ordered_try_except {A} (m : M A) (h : exn -> M A) :
  ordered m -> (forall e, quiet (h e)) -> ordered (try_except m h).
Proof.
  intros Hm Hh w. specialize (Hm w). unfold try_except, trace in *.
  destruct (m w) as [[[a | e | ] w1] t1]; cbn in Hm |- *; auto.
  specialize (Hh e w1). unfold trace in Hh.
  destruct (h e w1) as [[o w2] t2]. cbn in Hh |- *.
  rewrite registry_after_running_app, Hm. cbn.
  apply registry_after_running_quiet, Hh.
Qed.

Lemma ordered_try_finally {A} (m : M A) (f : M unit) :
  ordered m -> quiet f -> ordered (try_finally m f).
Proof.
  intros Hm Hf w. specialize (Hm w). unfold try_finally, trace in *.
  destruct (m w) as [[o w1] t1]. cbn in Hm.
  specialize (Hf w1). unfold trace in Hf.
  destruct (f w1) as [[[[] | e | ] w2] t2]; cbn in Hf;
    destruct o; cbn; try exact Hm;
    rewrite registry_after_running_app, Hm; cbn;
    apply registry_after_running_quiet, Hf.
Qed.

Lemma ordered_start_try svc fuel : ordered (start_try env svc fuel).
Proof.
  unfold start_try.
  apply ordered_bind_quiet; [auto with quiet | intros s]. cbv zeta.
  apply ordered_bind_quiet; [auto with quiet | intros _].
  apply ordered_bind_quiet.
  { apply quiet_if; [ | auto with quiet].
    apply quiet_bind; [auto with quiet | intros _].
    apply quiet_if; [ | auto with quiet].
    apply quiet_bind; [apply quiet_create_volume | auto with quiet]. }
  intros volume_data.
  apply ordered_bind_quiet; [apply quiet_schedule_job | intros returned].
  apply ordered_bind_quiet; [apply quiet_unpack2 | intros pair].
  do 3 (apply ordered_bind_quiet; [auto with quiet | intros _]).
  apply ordered_after_ensure_running.
Qed.

Lemma ordered_start_with svc fuel : ordered (start_with env svc fuel).
Proof.
  unfold start_with.
  apply ordered_try_finally.
  - apply ordered_try_except; [apply ordered_start_try | ].
    intros e. auto with quiet.
  - auto with quiet.
Qed.

End Ordering.

Lemma reports_running_inv e :
  reports_running e = true ->
  exists url resp,
    e = EvGetJob url (Answer resp)
    /\ is_error resp = false
    /\ json resp = Some {| Status := Some "running" |}.
Proof.
  destruct e as [ | | | | url [resp | x] | | | | | | | ]; cbn; try discriminate.
  intros H. apply andb_true_iff in H. destruct H as [He Hj].
  exists url, resp. split; [reflexivity | ].
  split; [destruct (is_error resp); [discriminate He | reflexivity] | ].
  destruct (json resp) as [[[s | ]] | ]; try discriminate Hj.
  apply String.eqb_eq in Hj. subst s. reflexivity.
Qed.

(** * Further properties *)

(** ** The persisted state *)

(** X1.  When the four identity attributes of a spawner exist, [get_state]
    returns a state whose loading into another spawner carries the four
    values over, [None] included, makes the four attributes exist there,
    and touches nothing else.  When one of them was never assigned,
    [get_state] raises [AttributeError] and returns no state. *)
Theorem load_state_restores_identity s s' n :
  if has_job_id s && has_job_name s && has_service_name s && has_notebook_id s
  then exists state,
         get_state (mkWorld s n) = (Return state, mkWorld s n, [])
         /\ job_id (load_state state s') = job_id s
         /\ job_name (load_state state s') = job_name s
         /\ service_name (load_state state s') = service_name s
         /\ notebook_id (load_state state s') = notebook_id s
         /\ has_job_id (load_state state s') = true
         /\ has_job_name (load_state state s') = true
         /\ has_service_name (load_state state s') = true
         /\ has_notebook_id (load_state state s') = true
         /\ user_name (load_state state s') = user_name s'
         /\ name (load_state state s') = name s'
         /\ user_options (load_state state s') = user_options s'
         /\ api_token (load_state state s') = api_token s'
  else exists msg,
         get_state (mkWorld s n) = (Raise (AttributeError msg), mkWorld s n, []).
Proof.
  destruct s as [u nm o tok j jn sn nb [ | ] [ | ] [ | ] [ | ]]; cbn [andb];
    try (eexists; reflexivity).
  eexists. split; [reflexivity | ]. repeat split.
Qed.

(** X2.  [load_state] reads each key on its own: a key that is absent leaves its
    field as it was, a key that is present overwrites it, with [None] too. *)
Theorem load_state_reads_each_key state s :
  job_id (load_state state s)
  = match dict_get "job_id" state with Some v => v | None => job_id s end
  /\ job_name (load_state state s)
     = match dict_get "job_name" state with Some v => v | None => job_name s end
  /\ service_name (load_state state s)
     = match dict_get "service_name" state with Some v => v | None => service_name s end
  /\ notebook_id (load_state state s)
     = match dict_get "notebook_id" state with Some v => v | None => notebook_id s end.
Proof.
  unfold load_state, load_key.
  destruct (dict_get "job_id" state), (dict_get "job_name" state),
    (dict_get "service_name" state), (dict_get "notebook_id" state);
    repeat split.
Qed.

(** ** task_status, continued *)

Lemma max_from_greatest {A} (key : A -> Z) (a x : A) (l : list A) :
  In a (x :: l) ->
  (forall b, In b (x :: l) -> b = a \/ (key b < key a)%Z) ->
  max_from key x l = a.
Proof.
  revert x. induction l as [ | y l IH]; intros x Hin Hall.
  - destruct Hin as [-> | []]. reflexivity.
  - cbn [max_from]. destruct (key x <? key y)%Z eqn:E.
    + apply Z.ltb_lt in E. apply IH.
      * destruct Hin as [-> | Hin]; [ | exact Hin].
        destruct (Hall y) as [-> | Hy]; [right; left; reflexivity | left; reflexivity | lia].
      * intros b Hb. apply Hall. right. exact Hb.
    + apply Z.ltb_ge in E. apply IH.
      * destruct Hin as [-> | [-> | Hin]]; [left; reflexivity | | right; exact Hin].
        destruct (Hall x) as [-> | Hx]; [left; reflexivity | left; reflexivity | lia].
      * intros b [-> | Hb]; apply Hall; [left; reflexivity | right; right; exact Hb].
Qed.

Lemma task_status_run env svc job w :
  task_status env svc job w
  = let w' := mkWorld (self w) (S (calls w)) in
    let ev := EvGetAllocations (allocations_url svc job) in
    match get_allocations env (calls w) (allocations_url svc job) with
    | Fails e => (Raise e, w', [ev (Fails e)])
    | Answer resp =>
        match json resp with
        | None => (Raise JSONDecodeError, w', [ev (Answer resp)])
        | Some [] =>
            (Raise (ValueError "max() arg is an empty sequence"), w', [ev (Answer resp)])
        | Some (a :: rest) =>
            (Return (match TaskStates (max_from CreateTime a rest) with
                     | Some (t :: ts) => task_loop (t :: ts)
                     | _ => "pending"
                     end),
             w', [ev (Answer resp)])
        end
    end.
Proof.
  cbv [task_status bind await json_of ret raise response_truth allocation_truth py_max negb].
  fold (allocations_url svc job).
  destruct (get_allocations env (calls w) (allocations_url svc job)) as [resp | e];
    [ | reflexivity].
  destruct (json resp) as [[ | a rest] | ]; try reflexivity.
  destruct (TaskStates (max_from CreateTime a rest)) as [[ | t ts] | ]; reflexivity.
Qed.

(** X3.  [task_status] reads the tasks of the allocation created last, wherever
    it stands in the answer; without tasks there, the answer is [pending]. *)
Theorem task_status_reads_newest_allocation env svc job w resp allocs a :
  get_allocations env (calls w) (allocations_url svc job) = Answer resp ->
  json resp = Some allocs ->
  In a allocs ->
  (forall b, In b allocs -> b = a \/ (CreateTime b < CreateTime a)%Z) ->
  result (task_status env svc job w)
  = Return (match TaskStates a with
            | Some (t :: ts) => task_loop (t :: ts)
            | _ => "pending"
            end).
Proof.
  intros Hg Hj Hin Hall.
  rewrite task_status_run, Hg, Hj. cbv zeta.
  destruct allocs as [ | x rest]; [destruct Hin | ].
  rewrite (@max_from_greatest _ CreateTime a x rest Hin Hall). reflexivity.
Qed.

Lemma task_status_reads_newest_allocation_witness :
  result (task_status
            (sample_env (ok tt) (ok sample_job) (ok tt) (fun _ => status_is "running")
                        (ok [new_allocation; old_allocation]) (ok tt)
                        (fun _ => Healthy []))
            sample_service "notebook-3f786850e3" (mkWorld started_spawner 0))
  = Return "running".
Proof.
  apply (@task_status_reads_newest_allocation
           (sample_env (ok tt) (ok sample_job) (ok tt) (fun _ => status_is "running")
                       (ok [new_allocation; old_allocation]) (ok tt)
                       (fun _ => Healthy []))
           sample_service "notebook-3f786850e3" (mkWorld started_spawner 0)
           (mkResponse 200 EmptyString (Some [new_allocation; old_allocation]))
           [new_allocation; old_allocation] new_allocation).
  - reflexivity.
  - reflexivity.
  - left. reflexivity.
  - intros b [Hb | [Hb | []]]; subst b; [left; reflexivity | right; reflexivity].
Defined.

Lemma get_task_state_from_event_range task :
  _get_task_state_from_event task = "starting" \/ _get_task_state_from_event task = "pending".
Proof.
  unfold _get_task_state_from_event.
  destruct (Events task) as [events | ]; [ | right; reflexivity].
  destruct (rev events) as [ | e rest]; [right; reflexivity | ].
  destruct ((Type_ e =? "Driver") || (Type_ e =? "Task Setup")); [left | right]; reflexivity.
Qed.

Lemma task_loop_range tasks : In (task_loop tasks) job_statuses.
Proof.
  induction tasks as [ | [n task] rest IH]; cbn [task_loop].
  - cbn. auto.
  - destruct ((State task =? "dead") && Failed task); [cbn; auto | ].
    destruct (negb (State task =? "running")); [ | exact IH].
    destruct (get_task_state_from_event_range task) as [-> | ->]; cbn; auto.
Qed.

(** X4.  Whatever the scheduler answers, a status that [task_status] returns is
    one of [pending], [starting], [running] and [dead]. *)
Theorem task_status_answers_a_job_status env svc job w s :
  result (task_status env svc job w) = Return s -> In s job_statuses.
Proof.
  rewrite task_status_run. cbv zeta.
  destruct (get_allocations env (calls w) (allocations_url svc job)) as [resp | e];
    [ | discriminate].
  destruct (json resp) as [[ | a rest] | ]; try discriminate.
  unfold result. cbn [fst]. intros H. injection H as <-.
  destruct (TaskStates (max_from CreateTime a rest)) as [[ | t ts] | ];
    [cbn; auto | exact (task_loop_range (t :: ts)) | cbn; auto].
Qed.

Lemma task_status_answers_a_job_status_witness : In "running" job_statuses.
Proof.
  apply (@task_status_answers_a_job_status
           (sample_env (ok tt) (ok sample_job) (ok tt) (fun _ => status_is "running")
                       (ok [new_allocation; old_allocation]) (ok tt)
                       (fun _ => Healthy []))
           sample_service "notebook-3f786850e3" (mkWorld started_spawner 0) "running").
  reflexivity.
Defined.

(** X5.  The loop over the tasks answers [running] exactly when every task
    reports [running]. *)
Theorem task_loop_running_iff tasks :
  task_loop tasks = "running" <-> all_running tasks.
Proof.
  split; [ | apply task_loop_all_running].
  induction tasks as [ | [n task] rest IH]; intros H; [constructor | ].
  cbn [task_loop] in H.
  destruct ((State task =? "dead") && Failed task); [discriminate H | ].
  destruct (State task =? "running") eqn:R; cbn [negb] in H.
  - apply String.eqb_eq in R. constructor; [exact R | apply IH, H].
  - destruct (get_task_state_from_event_range task) as [E | E];
      rewrite E in H; discriminate H.
Qed.

(** X6.  The loop answers [dead] exactly when the first task that is not running
    is dead and failed. *)
Theorem task_loop_dead_iff tasks :
  task_loop tasks = "dead"
  <-> exists before n task rest,
        tasks = before ++ (n, task) :: rest
        /\ all_running before
        /\ State task = "dead" /\ Failed task = true.
Proof.
  split.
  - induction tasks as [ | [n task] rest IH]; intros H; [discriminate H | ].
    cbn [task_loop] in H.
    destruct ((State task =? "dead") && Failed task) eqn:D.
    + apply andb_true_iff in D. destruct D as [Ds Df]. apply String.eqb_eq in Ds.
      exists [], n, task, rest. repeat split; [constructor | exact Ds | exact Df].
    + destruct (State task =? "running") eqn:R; cbn [negb] in H.
      * apply String.eqb_eq in R.
        destruct (IH H) as (before & m & t & rest' & -> & Hb & Hs & Hf).
        exists ((n, task) :: before), m, t, rest'.
        repeat split; [constructor; [exact R | exact Hb] | exact Hs | exact Hf].
      * destruct (get_task_state_from_event_range task) as [E | E];
          rewrite E in H; discriminate H.
  - intros (before & n & task & rest & -> & Hb & Hs & Hf).
    apply task_loop_failed_after_running; assumption.
Qed.

(** X7.  Only the latest event of a task counts: the task is [starting] when
    that event is a [Driver] or [Task Setup] event, [pending] otherwise,
    whatever came before. *)
Theorem latest_event_decides state failed earlier latest :
  _get_task_state_from_event
    {| State := state; Failed := failed; Events := Some (earlier ++ [latest]) |}
  = if (Type_ latest =? "Driver") || (Type_ latest =? "Task Setup")
    then "starting" else "pending".
Proof.
  unfold _get_task_state_from_event. cbn [Events].
  rewrite rev_app_distr. reflexivity.
Qed.

(** X8.  [task_status] does not look at the status code: an error response whose
    body does not decode makes it raise the decoding error, where
    [job_allocations] raises [NomadException] with the body. *)
Theorem task_status_ignores_http_errors env svc job w resp :
  get_allocations env (calls w) (allocations_url svc job) = Answer resp ->
  get_allocations env (calls w) ("/v1/job/" ++ job ++ "/allocations")%string = Answer resp ->
  is_error resp = true ->
  json resp = None ->
  result (task_status env svc job w) = Raise JSONDecodeError
  /\ result (job_allocations env job w)
     = Raise (NomadException ("Error getting job allocations: " ++ text resp)%string).
Proof.
  intros Hg Hg' He Hj. split.
  - rewrite task_status_run, Hg, Hj. reflexivity.
  - cbv [job_allocations bind await result]. rewrite Hg'. cbv beta iota.
    rewrite He. reflexivity.
Qed.

Lemma task_status_ignores_http_errors_witness :
  result (task_status
            (sample_env (ok tt) (ok sample_job) (ok tt) (fun _ => status_is "running")
                        (http_error 404 "job not found") (ok tt) (fun _ => Healthy []))
            sample_service "notebook-3f786850e3" (mkWorld started_spawner 0))
  = Raise JSONDecodeError
  /\ result (job_allocations
               (sample_env (ok tt) (ok sample_job) (ok tt) (fun _ => status_is "running")
                           (http_error 404 "job not found") (ok tt) (fun _ => Healthy []))
               "notebook-3f786850e3" (mkWorld started_spawner 0))
     = Raise (NomadException "Error getting job allocations: job not found").
Proof.
  apply (@task_status_ignores_http_errors
           (sample_env (ok tt) (ok sample_job) (ok tt) (fun _ => status_is "running")
                       (http_error 404 "job not found") (ok tt) (fun _ => Healthy []))
           sample_service "notebook-3f786850e3" (mkWorld started_spawner 0)
           (mkResponse 404 "job not found" None));
    reflexivity.
Defined.

(** ** _ensure_running, continued *)

Lemma job_status_of_reply env svc job w :
  job_status env svc job w
  = (match status_of_reply (get_job env (calls w) (job_url svc job)) with
     | Some st => Return st
     | None =>
         match get_job env (calls w) (job_url svc job) with
         | Fails e => Raise e
         | Answer resp =>
             if is_error resp
             then Raise (NomadException ("Error getting job status: " ++ text resp)%string)
             else Raise JSONDecodeError
         end
     end,
     mkWorld (self w) (S (calls w)),
     [EvGetJob (job_url svc job) (get_job env (calls w) (job_url svc job))]).
Proof.
  rewrite job_status_run. cbv zeta. unfold status_of_reply.
  destruct (get_job env (calls w) (job_url svc job)) as [resp | e]; [ | reflexivity].
  destruct (is_error resp); [reflexivity | ].
  destruct (json resp); reflexivity.
Qed.

(** One turn of the loop on a status that is neither [running] nor [dead]. *)
Lemma ensure_running_loop_waits env svc status fuel w st :
  status_of_reply (get_job env (calls w) (job_url svc (job_id (self w)))) = Some st ->
  waiting st = true ->
  _ensure_running_loop env svc status (S fuel) w
  = (let r := _ensure_running_loop env svc (Some st) fuel (mkWorld (self w) (S (calls w))) in
     (fst (fst r), snd (fst r),
      EvGetJob (job_url svc (job_id (self w)))
               (get_job env (calls w) (job_url svc (job_id (self w))))
      :: waiting_events (self w) ++ snd r)).
Proof.
  intros Hs Hw. unfold waiting in Hw. apply andb_true_iff in Hw. destruct Hw as [Hr Hd].
  apply negb_true_iff in Hr, Hd.
  cbn [_ensure_running_loop].
  cbv [bind get_self try_except ret log emit sleep raise].
  rewrite job_status_of_reply, Hs, Hr, Hd. cbn [self calls].
  destruct (_ensure_running_loop env svc (Some st) fuel (mkWorld (self w) (S (calls w))))
    as [[o w2] t2].
  reflexivity.
Qed.

(** One turn of the loop on a status that ends it. *)
Lemma ensure_running_loop_ends env svc status fuel w st :
  status_of_reply (get_job env (calls w) (job_url svc (job_id (self w)))) = Some st ->
  waiting st = false ->
  _ensure_running_loop env svc status (S fuel) w
  = (if st =? "running" then Return tt
     else Raise (Exception ("Job (id=" ++ py_str (job_id (self w)) ++ ") is dead already")%string),
     mkWorld (self w) (S (calls w)),
     [EvGetJob (job_url svc (job_id (self w)))
               (get_job env (calls w) (job_url svc (job_id (self w))))]).
Proof.
  intros Hs Hw.
  cbn [_ensure_running_loop].
  cbv [bind get_self try_except ret log emit sleep raise].
  rewrite job_status_of_reply, Hs.
  destruct (st =? "running") eqn:Hr; [reflexivity | ].
  unfold waiting in Hw. rewrite Hr in Hw. cbn in Hw. apply negb_false_iff in Hw.
  rewrite Hw. reflexivity.
Qed.

(** One turn of the loop when the query fails and an earlier status, on
    which the loop waits, is still in [status]. *)
Lemma ensure_running_loop_reuses_status env svc fuel w st :
  status_of_reply (get_job env (calls w) (job_url svc (job_id (self w)))) = None ->
  waiting st = true ->
  _ensure_running_loop env svc (Some st) (S fuel) w
  = (let r := _ensure_running_loop env svc (Some st) fuel (mkWorld (self w) (S (calls w))) in
     (fst (fst r), snd (fst r),
      EvGetJob (job_url svc (job_id (self w)))
               (get_job env (calls w) (job_url svc (job_id (self w))))
      :: EvLog "error" "Failed to get job status"
      :: waiting_events (self w) ++ snd r)).
Proof.
  intros Hs Hw. unfold waiting in Hw. apply andb_true_iff in Hw. destruct Hw as [Hr Hd].
  apply negb_true_iff in Hr, Hd.
  cbn [_ensure_running_loop].
  cbv [bind get_self try_except ret log emit sleep raise].
  rewrite job_status_of_reply, Hs.
  destruct (get_job env (calls w) (job_url svc (job_id (self w)))) as [resp | e];
    [destruct (is_error resp) | ];
    cbn [self calls]; rewrite Hr, Hd;
    destruct (_ensure_running_loop env svc (Some st) fuel (mkWorld (self w) (S (calls w))))
      as [[o w2] t2];
    reflexivity.
Qed.

(** The loop after [k] answers on which it waits and one answer that ends
    it. *)
Lemma ensure_running_loop_after_waiting env svc k :
  forall status fuel w st,
    (forall i, i < k ->
       exists s, status_of_reply
                   (get_job env (calls w + i) (job_url svc (job_id (self w)))) = Some s
                 /\ waiting s = true) ->
    status_of_reply (get_job env (calls w + k) (job_url svc (job_id (self w)))) = Some st ->
    waiting st = false ->
    k < fuel ->
    fst (fst (_ensure_running_loop env svc status fuel w))
    = (if st =? "running" then Return tt
       else Raise (Exception ("Job (id=" ++ py_str (job_id (self w)) ++ ") is dead already")%string))
    /\ snd (fst (_ensure_running_loop env svc status fuel w))
       = mkWorld (self w) (calls w + k + 1)
    /\ slept (snd (_ensure_running_loop env svc status fuel w)) = 5 * k
    /\ length (filter is_status_query (snd (_ensure_running_loop env svc status fuel w)))
       = k + 1.
Proof.
  induction k as [ | k IH]; intros status fuel w st Hpre Hend Hw Hfuel.
  - destruct fuel as [ | fuel]; [lia | ].
    rewrite Nat.add_0_r in Hend.
    rewrite (@ensure_running_loop_ends env svc status fuel w st Hend Hw).
    cbn [fst snd]. rewrite Nat.add_0_r, Nat.add_1_r. repeat split.
  - destruct fuel as [ | fuel]; [lia | ].
    destruct (Hpre 0) as (s0 & Hs0 & Hw0); [lia | ].
    rewrite Nat.add_0_r in Hs0.
    rewrite (@ensure_running_loop_waits env svc status fuel w s0 Hs0 Hw0). cbv zeta.
    cbn [fst snd].
    specialize (IH (Some s0) fuel (mkWorld (self w) (S (calls w))) st).
    cbn [self calls] in IH.
    destruct IH as (Ho & Hwd & Hsl & Hq).
    + intros i Hi. destruct (Hpre (S i)) as (s & Hs & Hws); [lia | ].
      exists s. split; [ | exact Hws].
      replace (S (calls w) + i) with (calls w + S i) by lia. exact Hs.
    + replace (S (calls w) + k) with (calls w + S k) by lia. exact Hend.
    + exact Hw.
    + lia.
    + rewrite Ho, Hwd.
      split; [reflexivity | ].
      split; [f_equal; lia | ].
      cbn [waiting_events app slept filter is_status_query length].
      rewrite Hsl, Hq. lia.
Qed.

(** X9.  When the scheduler answers [k] times with statuses other than [running]
    and [dead] and then with [running], [_ensure_running] returns after
    [k + 1] queries, having slept five seconds after each of the first
    [k]. *)
Theorem ensure_running_returns_when_running env svc w k fuel :
  (forall i, i < k ->
     exists s, status_of_reply
                 (get_job env (calls w + i) (job_url svc (job_id (self w)))) = Some s
               /\ waiting s = true) ->
  status_of_reply (get_job env (calls w + k) (job_url svc (job_id (self w))))
  = Some "running" ->
  k < fuel ->
  result (_ensure_running env svc fuel w) = Return tt
  /\ snd (fst (_ensure_running env svc fuel w)) = mkWorld (self w) (calls w + k + 1)
  /\ slept (trace (_ensure_running env svc fuel w)) = 5 * k
  /\ length (filter is_status_query (trace (_ensure_running env svc fuel w))) = k + 1.
Proof.
  intros Hpre Hend Hfuel.
  exact (@ensure_running_loop_after_waiting env svc k None fuel w "running" Hpre Hend eq_refl Hfuel).
Qed.

Lemma ensure_running_returns_when_running_witness :
  result (_ensure_running slow_start_env sample_service 10 (mkWorld started_spawner 0))
  = Return tt
  /\ snd (fst (_ensure_running slow_start_env sample_service 10 (mkWorld started_spawner 0)))
     = mkWorld started_spawner 3
  /\ slept (trace (_ensure_running slow_start_env sample_service 10
                     (mkWorld started_spawner 0))) = 10
  /\ length (filter is_status_query
               (trace (_ensure_running slow_start_env sample_service 10
                         (mkWorld started_spawner 0)))) = 3.
Proof.
  apply (@ensure_running_returns_when_running
           slow_start_env sample_service (mkWorld started_spawner 0) 2 10).
  - intros i Hi. exists "pending".
    destruct i as [ | [ | i]]; [split; reflexivity | split; reflexivity | lia].
  - reflexivity.
  - lia.
Defined.

(** X10.  When the scheduler answers [k] times with statuses other than [running]
    and [dead] and then with [dead], [_ensure_running] raises at once: it
    does not sleep or query again after the [dead] answer. *)
Theorem ensure_running_raises_when_dead env svc w k fuel :
  (forall i, i < k ->
     exists s, status_of_reply
                 (get_job env (calls w + i) (job_url svc (job_id (self w)))) = Some s
               /\ waiting s = true) ->
  status_of_reply (get_job env (calls w + k) (job_url svc (job_id (self w))))
  = Some "dead" ->
  k < fuel ->
  result (_ensure_running env svc fuel w)
  = Raise (Exception ("Job (id=" ++ py_str (job_id (self w)) ++ ") is dead already")%string)
  /\ slept (trace (_ensure_running env svc fuel w)) = 5 * k
  /\ length (filter is_status_query (trace (_ensure_running env svc fuel w))) = k + 1.
Proof.
  intros Hpre Hend Hfuel.
  destruct (@ensure_running_loop_after_waiting env svc k None fuel w "dead" Hpre Hend eq_refl Hfuel)
    as (Ho & _ & Hs & Hq).
  repeat split; assumption.
Qed.

Lemma ensure_running_raises_when_dead_witness :
  result (_ensure_running dying_job_env sample_service 10 (mkWorld started_spawner 0))
  = Raise (Exception "Job (id=notebook-3f786850e3) is dead already")
  /\ slept (trace (_ensure_running dying_job_env sample_service 10
                     (mkWorld started_spawner 0))) = 10
  /\ length (filter is_status_query
               (trace (_ensure_running dying_job_env sample_service 10
                         (mkWorld started_spawner 0)))) = 3.
Proof.
  apply (@ensure_running_raises_when_dead
           dying_job_env sample_service (mkWorld started_spawner 0) 2 10).
  - intros i Hi. exists "pending".
    destruct i as [ | [ | i]]; [split; reflexivity | split; reflexivity | lia].
  - reflexivity.
  - lia.
Defined.

Lemma ensure_running_loop_lost_scheduler env svc st fuel :
  forall w,
    waiting st = true ->
    (forall i, status_of_reply
                 (get_job env (calls w + i) (job_url svc (job_id (self w)))) = None) ->
    fst (fst (_ensure_running_loop env svc (Some st) fuel w)) = OutOfFuel
    /\ slept (snd (_ensure_running_loop env svc (Some st) fuel w)) = 5 * fuel.
Proof.
  induction fuel as [ | fuel IH]; intros w Hw Hall.
  - split; reflexivity.
  - pose proof (Hall 0) as H0. rewrite Nat.add_0_r in H0.
    rewrite (@ensure_running_loop_reuses_status env svc fuel w st H0 Hw). cbv zeta.
    cbn [fst snd].
    destruct (IH (mkWorld (self w) (S (calls w))) Hw) as [Ho Hs].
    + intros i. cbn [self calls].
      replace (S (calls w) + i) with (calls w + S i) by lia. apply Hall.
    + split; [exact Ho | ].
      cbn [waiting_events app slept]. rewrite Hs. lia.
Qed.

(** X11.  There is no timeout and no bound on failed queries: once a status other
    than [running] and [dead] has been read, a scheduler whose every later
    query fails keeps the loop turning; whatever the number of turns allowed,
    the loop has neither returned nor raised, and has slept five seconds in
    each turn. *)
Theorem ensure_running_never_gives_up env svc w st fuel :
  status_of_reply (get_job env (calls w) (job_url svc (job_id (self w)))) = Some st ->
  waiting st = true ->
  (forall i, 0 < i ->
     status_of_reply (get_job env (calls w + i) (job_url svc (job_id (self w)))) = None) ->
  result (_ensure_running env svc fuel w) = OutOfFuel
  /\ slept (trace (_ensure_running env svc fuel w)) = 5 * fuel.
Proof.
  intros Hs Hw Hall. unfold _ensure_running, result, trace.
  destruct fuel as [ | fuel]; [split; reflexivity | ].
  rewrite (@ensure_running_loop_waits env svc None fuel w st Hs Hw). cbv zeta.
  cbn [fst snd].
  destruct (@ensure_running_loop_lost_scheduler env svc st fuel
              (mkWorld (self w) (S (calls w))) Hw) as [Ho Hsl].
  - intros i. cbn [self calls].
    replace (S (calls w) + i) with (calls w + S i) by lia. apply Hall. lia.
  - split; [exact Ho | ].
    cbn [waiting_events app slept]. rewrite Hsl. lia.
Qed.

Lemma ensure_running_never_gives_up_witness :
  result (_ensure_running lost_scheduler_env sample_service 50 (mkWorld started_spawner 0))
  = OutOfFuel
  /\ slept (trace (_ensure_running lost_scheduler_env sample_service 50
                     (mkWorld started_spawner 0))) = 5 * 50.
Proof.
  apply (@ensure_running_never_gives_up
           lost_scheduler_env sample_service (mkWorld started_spawner 0) "pending" 50).
  - reflexivity.
  - reflexivity.
  - intros i Hi. destruct i as [ | i]; [lia | reflexivity].
Defined.

(** ** service, continued *)

(** A failed attempt of [service], whatever made it fail, followed by the
    rest of the retries. *)
Lemma retrying_after_failure env k w e :
  fst (fst (service_attempt env w)) = Raise e ->
  retrying 3 (S k) (service_attempt env) w
  = (let r := retrying 3 k (service_attempt env) (mkWorld (self w) (S (calls w))) in
     (fst (fst r), snd (fst r), snd (service_attempt env w) ++ EvSleep 3 :: snd r)).
Proof.
  intros H. cbn [retrying]. unfold try_except at 1.
  rewrite service_attempt_run in H |- *.
  destruct (health_service env (calls w) (service_name (self w))) as [[ | node rest] | x];
    cbn [fst snd] in H |- *; try discriminate H;
    unfold bind at 1; cbn [sleep emit];
    destruct (retrying 3 k (service_attempt env) (mkWorld (self w) (S (calls w))))
      as [[o w2] t2];
    reflexivity.
Qed.

Lemma retrying_last_failure env w e :
  fst (fst (service_attempt env w)) = Raise e ->
  retrying 3 0 (service_attempt env) w
  = (Raise (RetryError e), mkWorld (self w) (S (calls w)), snd (service_attempt env w)).
Proof.
  intros H. cbn [retrying]. unfold try_except.
  rewrite service_attempt_run in H |- *.
  destruct (health_service env (calls w) (service_name (self w))) as [[ | node rest] | x];
    cbn [fst snd] in H |- *; try discriminate H;
    injection H as <-; reflexivity.
Qed.

Lemma retrying_success env k w v :
  fst (fst (service_attempt env w)) = Return v ->
  retrying 3 k (service_attempt env) w = service_attempt env w.
Proof.
  intros H. destruct k; cbn [retrying]; unfold try_except;
    destruct (service_attempt env w) as [[[a | e | ] w1] t1]; cbn in H;
    try discriminate H; reflexivity.
Qed.

Lemma service_attempt_outcome env w :
  (exists v, fst (fst (service_attempt env w)) = Return v)
  \/ (exists e, fst (fst (service_attempt env w)) = Raise e).
Proof.
  rewrite service_attempt_run.
  destruct (health_service env (calls w) (service_name (self w))) as [[ | node rest] | x];
    cbn; eauto.
Qed.

Lemma service_attempt_world env w :
  snd (fst (service_attempt env w)) = mkWorld (self w) (S (calls w)).
Proof.
  rewrite service_attempt_run.
  destruct (health_service env (calls w) (service_name (self w))) as [[ | node rest] | x];
    reflexivity.
Qed.

Lemma service_attempt_slept env w : slept (snd (service_attempt env w)) = 0.
Proof.
  rewrite service_attempt_run.
  destruct (health_service env (calls w) (service_name (self w))) as [[ | node rest] | x];
    reflexivity.
Qed.

Lemma slept_app t1 t2 : slept (t1 ++ t2) = slept t1 + slept t2.
Proof.
  induction t1 as [ | e t1 IH]; [reflexivity | ].
  destruct e; cbn [app slept]; rewrite IH; lia.
Qed.

Lemma retrying_outcome env k :
  forall w,
    match fst (fst (retrying 3 k (service_attempt env) w)) with
    | Return _ => True
    | Raise (RetryError _) => True
    | _ => False
    end
    /\ self (snd (fst (retrying 3 k (service_attempt env) w))) = self w
    /\ slept (snd (retrying 3 k (service_attempt env) w)) <= 3 * k.
Proof.
  induction k as [ | k IH]; intros w.
  - destruct (service_attempt_outcome env w) as [[v H] | [e H]].
    + rewrite (retrying_success env 0 w H), H, service_attempt_world, service_attempt_slept.
      cbn. auto.
    + rewrite (retrying_last_failure env w H). cbn [fst snd self].
      rewrite service_attempt_slept. auto.
  - destruct (service_attempt_outcome env w) as [[v H] | [e H]].
    + rewrite (retrying_success env (S k) w H), H, service_attempt_world,
        service_attempt_slept.
      cbn [self]. repeat split. lia.
    + rewrite (retrying_after_failure env k w H). cbv zeta. cbn [fst snd].
      destruct (IH (mkWorld (self w) (S (calls w)))) as (Ho & Hs & Hsl).
      split; [exact Ho | ]. split; [exact Hs | ].
      rewrite slept_app, service_attempt_slept. cbn [slept]. lia.
Qed.

(** X12.  Whatever the registry does, [service] either returns or raises
    [RetryError]: an exception of the registry client or of the indexing never
    leaves it as it is. *)
Theorem service_raises_only_RetryError env w :
  match result (service env w) with
  | Return _ => True
  | Raise (RetryError _) => True
  | _ => False
  end.
Proof. exact (proj1 (retrying_outcome env 4 w)). Qed.

(** X13.  Whatever the registry does, [service] queries it at most five times,
    sleeps at most twelve seconds in all, and leaves the spawner object as
    it was. *)
Theorem service_is_bounded env w :
  length (filter is_registry_query (trace (service env w))) <= 5
  /\ slept (trace (service env w)) <= 12
  /\ final (service env w) = self w.
Proof.
  split; [exact (retrying_bounds_attempts env 4 w) | ].
  destruct (retrying_outcome env 4 w) as (_ & Hs & Hsl).
  split; [exact Hsl | exact Hs].
Qed.

Lemma service_attempt_no_instance env w :
  no_instance (health_service env (calls w) (service_name (self w))) = true ->
  exists e, fst (fst (service_attempt env w)) = Raise e.
Proof.
  rewrite service_attempt_run.
  destruct (health_service env (calls w) (service_name (self w))) as [[ | node rest] | x];
    cbn; intros H; try discriminate H; eauto.
Qed.

Lemma retrying_late_instance env k :
  forall attempts_left w node rest,
    k <= attempts_left ->
    (forall i, i < k ->
       no_instance (health_service env (calls w + i) (service_name (self w))) = true) ->
    health_service env (calls w + k) (service_name (self w)) = Healthy (node :: rest) ->
    fst (fst (retrying 3 attempts_left (service_attempt env) w))
    = Return (Address (Service node), Port (Service node))
    /\ snd (fst (retrying 3 attempts_left (service_attempt env) w))
       = mkWorld (self w) (calls w + k + 1)
    /\ slept (snd (retrying 3 attempts_left (service_attempt env) w)) = 3 * k.
Proof.
  induction k as [ | k IH]; intros attempts_left w node rest Hk Hpre Hend.
  - rewrite Nat.add_0_r in Hend.
    assert (H : fst (fst (service_attempt env w))
                = Return (Address (Service node), Port (Service node))).
    { rewrite service_attempt_run, Hend. reflexivity. }
    rewrite (retrying_success env attempts_left w H), H, service_attempt_world,
      service_attempt_slept.
    rewrite Nat.add_0_r, Nat.add_1_r. repeat split.
  - destruct attempts_left as [ | attempts_left]; [lia | ].
    pose proof (Hpre 0) as H0. rewrite Nat.add_0_r in H0.
    destruct (service_attempt_no_instance env w (H0 ltac:(lia))) as [e He].
    rewrite (retrying_after_failure env attempts_left w He). cbv zeta. cbn [fst snd].
    destruct (IH attempts_left (mkWorld (self w) (S (calls w))) node rest) as (Ho & Hw & Hs).
    + lia.
    + intros i Hi. cbn [self calls].
      replace (S (calls w) + i) with (calls w + S i) by lia. apply Hpre. lia.
    + cbn [self calls]. replace (S (calls w) + k) with (calls w + S k) by lia. exact Hend.
    + cbn [self calls] in Hw.
      rewrite Ho, Hw. split; [reflexivity | ]. split; [f_equal; lia | ].
      rewrite slept_app, service_attempt_slept. cbn [slept]. rewrite Hs. lia.
Qed.

(** X14.  A registration that lags is waited for: when the first [k] answers of
    the registry, [k] at most four, name no instance or fail, and the next
    one names instances, [service] returns the address and port of the first
    of them after [k + 1] queries and [3 * k] seconds of sleep. *)
Theorem service_waits_for_late_registration env w k node rest :
  k <= 4 ->
  (forall i, i < k ->
     no_instance (health_service env (calls w + i) (service_name (self w))) = true) ->
  health_service env (calls w + k) (service_name (self w)) = Healthy (node :: rest) ->
  result (service env w) = Return (Address (Service node), Port (Service node))
  /\ snd (fst (service env w)) = mkWorld (self w) (calls w + k + 1)
  /\ slept (trace (service env w)) = 3 * k.
Proof.
  intros Hk Hpre Hend.
  exact (@retrying_late_instance env k 4 w node rest Hk Hpre Hend).
Qed.

Lemma service_waits_for_late_registration_witness :
  result (service late_registry_env (mkWorld started_spawner 0))
  = Return ("10.0.0.7", 8888%Z)
  /\ snd (fst (service late_registry_env (mkWorld started_spawner 0)))
     = mkWorld started_spawner 3
  /\ slept (trace (service late_registry_env (mkWorld started_spawner 0))) = 6.
Proof.
  apply (@service_waits_for_late_registration
           late_registry_env (mkWorld started_spawner 0) 2
           (node_at "10.0.0.7" 8888) [node_at "10.0.0.9" 8888]).
  - lia.
  - intros i Hi. destruct i as [ | [ | i]]; [reflexivity | reflexivity | lia].
  - reflexivity.
Defined.

(** ** Composition of computations *)

Section Composition.

Variable p : Event -> bool.

Lemma silent_ret {A} (a : A) : silent p (ret a).
Proof. intros w. reflexivity. Qed.

Lemma silent_raise {A} e : silent p (@raise A e).
Proof. intros w. reflexivity. Qed.

Lemma silent_get_self : silent p get_self.
Proof. intros w. reflexivity. Qed.

Lemma silent_modify_self f : silent p (modify_self f).
Proof. intros w. reflexivity. Qed.

Lemma silent_emit e : p e = false -> silent p (emit e).
Proof. intros H w. cbn. rewrite H. reflexivity. Qed.

Lemma silent_json_of {A} (r : Response A) : silent p (json_of r).
Proof. intros w. unfold json_of. destruct (json r); reflexivity. Qed.

Lemma silent_await {A} (r : nat -> reply A) (ev : reply A -> Event) :
  (forall x, p (ev x) = false) -> silent p (await r ev).
Proof.
  intros H w. unfold await, trace. destruct (r (calls w)); cbn; rewrite H; reflexivity.
Qed.

Lemma silent_bind {A B} (m : M A) (k : A -> M B) :
  silent p m -> (forall a, silent p (k a)) -> silent p (bind m k).
Proof.
  intros Hm Hk w. specialize (Hm w). unfold bind, trace in *.
  destruct (m w) as [[[a | e | ] w1] t1]; cbn in Hm |- *; auto.
  specialize (Hk a w1). unfold trace in Hk.
  destruct (k a w1) as [[o w2] t2]. cbn in Hk |- *.
  rewrite existsb_app, Hm, Hk. reflexivity.
Qed.

Lemma silent_try_except {A} (m : M A) (h : exn -> M A) :
  silent p m -> (forall e, silent p (h e)) -> silent p (try_except m h).
Proof.
  intros Hm Hh w. specialize (Hm w). unfold try_except, trace in *.
  destruct (m w) as [[[a | e | ] w1] t1]; cbn in Hm |- *; auto.
  specialize (Hh e w1). unfold trace in Hh.
  destruct (h e w1) as [[o w2] t2]. cbn in Hh |- *.
  rewrite existsb_app, Hm, Hh. reflexivity.
Qed.

Lemma silent_try_finally {A} (m : M A) (f : M unit) :
  silent p m -> silent p f -> silent p (try_finally m f).
Proof.
  intros Hm Hf w. specialize (Hm w). unfold try_finally, trace in *.
  destruct (m w) as [[o w1] t1]. cbn in Hm.
  specialize (Hf w1). unfold trace in Hf.
  destruct (f w1) as [[[[] | e | ] w2] t2]; cbn in Hf;
    destruct o; cbn; try exact Hm; rewrite existsb_app, Hm, Hf; reflexivity.
Qed.

Lemma silent_if {A} (b : bool) (m1 m2 : M A) :
  silent p m1 -> silent p m2 -> silent p (if b then m1 else m2).
Proof. destruct b; auto. Qed.

End Composition.

Ltac silent_steps :=
  repeat first
    [ apply silent_ret
    | apply silent_raise
    | apply silent_get_self
    | apply silent_modify_self
    | apply silent_json_of
    | apply silent_emit; reflexivity
    | apply silent_await; intros ?; reflexivity
    | apply silent_bind; [ | intros ? ]
    | apply silent_try_except; [ | intros ? ]
    | apply silent_try_finally
    | apply silent_if
    | assumption ].

Lemma keeps_self_ret {A} (a : A) : keeps_self (ret a).
Proof. intros w. reflexivity. Qed.

Lemma keeps_self_raise {A} e : keeps_self (@raise A e).
Proof. intros w. reflexivity. Qed.

Lemma keeps_self_get_self : keeps_self get_self.
Proof. intros w. reflexivity. Qed.

Lemma keeps_self_emit e : keeps_self (emit e).
Proof. intros w. reflexivity. Qed.

Lemma keeps_self_json_of {A} (r : Response A) : keeps_self (json_of r).
Proof. intros w. unfold json_of. destruct (json r); reflexivity. Qed.

Lemma keeps_self_await {A} (r : nat -> reply A) (ev : reply A -> Event) :
  keeps_self (await r ev).
Proof. intros w. unfold await. destruct (r (calls w)); reflexivity. Qed.

Lemma keeps_self_bind {A B} (m : M A) (k : A -> M B) :
  keeps_self m -> (forall a, keeps_self (k a)) -> keeps_self (bind m k).
Proof.
  intros Hm Hk w. specialize (Hm w). unfold bind.
  destruct (m w) as [[[a | e | ] w1] t1]; cbn in Hm |- *; auto.
  specialize (Hk a w1). destruct (k a w1) as [[o w2] t2]. cbn in Hk |- *.
  congruence.
Qed.

Lemma keeps_self_try_except {A} (m : M A) (h : exn -> M A) :
  keeps_self m -> (forall e, keeps_self (h e)) -> keeps_self (try_except m h).
Proof.
  intros Hm Hh w. specialize (Hm w). unfold try_except.
  destruct (m w) as [[[a | e | ] w1] t1]; cbn in Hm |- *; auto.
  specialize (Hh e w1). destruct (h e w1) as [[o w2] t2]. cbn in Hh |- *.
  congruence.
Qed.

Lemma keeps_self_try_finally {A} (m : M A) (f : M unit) :
  keeps_self m -> keeps_self f -> keeps_self (try_finally m f).
Proof.
  intros Hm Hf w. specialize (Hm w). unfold try_finally.
  destruct (m w) as [[o w1] t1]. cbn in Hm.
  specialize (Hf w1).
  destruct (f w1) as [[[[] | e | ] w2] t2]; cbn in Hf;
    destruct o; cbn; congruence.
Qed.

Lemma keeps_self_if {A} (b : bool) (m1 m2 : M A) :
  keeps_self m1 -> keeps_self m2 -> keeps_self (if b then m1 else m2).
Proof. destruct b; auto. Qed.

Ltac keeps_self_steps :=
  repeat first
    [ apply keeps_self_ret
    | apply keeps_self_raise
    | apply keeps_self_get_self
    | apply keeps_self_json_of
    | apply keeps_self_emit
    | apply keeps_self_await
    | apply keeps_self_bind; [ | intros ? ]
    | apply keeps_self_try_except; [ | intros ? ]
    | apply keeps_self_try_finally
    | apply keeps_self_if
    | assumption ].

Lemma bind_Return_inv {A B} (m : M A) (k : A -> M B) w b w2 t :
  bind m k w = (Return b, w2, t) ->
  exists a w1 t1 t2,
    m w = (Return a, w1, t1) /\ k a w1 = (Return b, w2, t2) /\ t = t1 ++ t2.
Proof.
  unfold bind. destruct (m w) as [[[a | e | ] w1] t1]; try discriminate.
  destruct (k a w1) as [[o w3] t2] eqn:K. intros H. injection H as -> -> <-.
  exists a, w1, t1, t2. auto.
Qed.

Lemma bind_trace_prefix {A B} (m : M A) (k : A -> M B) w :
  exists t, trace (bind m k w) = trace (m w) ++ t.
Proof.
  unfold bind, trace. destruct (m w) as [[[a | e | ] w1] t1]; cbn.
  - destruct (k a w1) as [[o w2] t2]. cbn. eauto.
  - exists []. rewrite app_nil_r. reflexivity.
  - exists []. rewrite app_nil_r. reflexivity.
Qed.

Lemma try_except_trace_prefix {A} (m : M A) (h : exn -> M A) w :
  exists t, trace (try_except m h w) = trace (m w) ++ t.
Proof.
  unfold try_except, trace. destruct (m w) as [[[a | e | ] w1] t1]; cbn.
  - exists []. rewrite app_nil_r. reflexivity.
  - destruct (h e w1) as [[o w2] t2]. cbn. eauto.
  - exists []. rewrite app_nil_r. reflexivity.
Qed.

Lemma try_finally_trace_prefix {A} (m : M A) (f : M unit) w :
  exists t, trace (try_finally m f w) = trace (m w) ++ t.
Proof.
  unfold try_finally, trace. destruct (m w) as [[o w1] t1].
  destruct (f w1) as [[[[] | e | ] w2] t2]; destruct o; cbn; eauto;
    exists []; rewrite app_nil_r; reflexivity.
Qed.

(** ** poll and stop, continued *)

Lemma poll_with_run env svc w :
  poll_with env svc w
  = (if has_job_id (self w)
     then
       let reply_ := get_job env (calls w) (job_url svc (job_id (self w))) in
       (match status_of_reply reply_ with
        | Some st =>
            if st =? "running" then Return PollNone
            else if has_job_name (self w) then Return (PollStatus st)
                 else Return (PollInt (-1))
        | None => Return (PollInt (-1))
        end,
        mkWorld (self w) (S (calls w)),
        EvGetJob (job_url svc (job_id (self w))) reply_
        :: match status_of_reply reply_ with
           | Some st =>
               if st =? "running" then []
               else if has_job_name (self w)
                    then [EvLog "warning"
                            ("jupyter notebook not running (" ++ py_str (job_name (self w))
                             ++ "): " ++ st)%string]
                    else [EvLog "error" "Failed to poll"]
           | None => [EvLog "error" "Failed to poll"]
           end
        ++ [EvClose NomadClient])
     else (Return (PollInt (-1)), w, [EvLog "error" "Failed to poll"; EvClose NomadClient])).
Proof.
  cbv [poll_with try_finally try_except bind read_attr ret log emit aclose].
  destruct (has_job_id (self w)); [ | destruct w; reflexivity].
  rewrite job_status_of_reply. cbv zeta.
  destruct (status_of_reply (get_job env (calls w) (job_url svc (job_id (self w)))))
    as [st | ] eqn:S.
  - destruct (st =? "running"); [reflexivity | ].
    cbn [negb self calls]. destruct (has_job_name (self w)); reflexivity.
  - destruct (get_job env (calls w) (job_url svc (job_id (self w)))) as [resp | e];
      [destruct (is_error resp) | ]; reflexivity.
Qed.

(** X15.  From its [try] statement on, [poll] is read-only: it leaves the
    spawner object as it was, and apart from log records its trace is, when
    [job_id] is set, one status query for that job id followed by the
    closing of the client, and, when [job_id] was never assigned, the closing
    of the client alone. *)
Theorem poll_only_reads env svc w :
  final (poll_with env svc w) = self w
  /\ without_logs (trace (poll_with env svc w))
     = if has_job_id (self w)
       then [ EvGetJob (job_url svc (job_id (self w)))
                       (get_job env (calls w) (job_url svc (job_id (self w))));
              EvClose NomadClient ]
       else [ EvClose NomadClient ].
Proof.
  rewrite poll_with_run. cbv zeta.
  destruct (has_job_id (self w)); [ | split; reflexivity].
  split; [reflexivity | ].
  cbn [trace snd].
  destruct (status_of_reply (get_job env (calls w) (job_url svc (job_id (self w)))))
    as [st | ]; [destruct (st =? "running"); [ | destruct (has_job_name (self w))] | ];
    reflexivity.
Qed.

(** X16.  From its [try] statement on, [poll] always returns.  It returns
    [None] whenever [job_id] is set and the status query returns [running].
    It returns [-1] when [job_id] was never assigned, when the status query
    raises, and when the status is not [running] and [job_name] was never
    assigned.  It returns a status string exactly when [job_id] and
    [job_name] are set and the status query returns that string, which is not
    [running].  (The status query returns a string for the documents of
    [JobDetail]; a value that is no string is handed back as it is, which is
    why nothing is said about when [None] is returned.) *)
Theorem poll_result_by_status env svc w :
  (exists v, result (poll_with env svc w) = Return v)
  /\ (has_job_id (self w) = true ->
      result (job_status env svc (job_id (self w)) w) = Return "running" ->
      result (poll_with env svc w) = Return PollNone)
  /\ (has_job_id (self w) = false ->
      result (poll_with env svc w) = Return (PollInt (-1)))
  /\ (has_job_id (self w) = true ->
      is_raise (result (job_status env svc (job_id (self w)) w)) = true ->
      result (poll_with env svc w) = Return (PollInt (-1)))
  /\ (forall st,
        has_job_id (self w) = true ->
        has_job_name (self w) = false ->
        result (job_status env svc (job_id (self w)) w) = Return st ->
        st <> "running" ->
        result (poll_with env svc w) = Return (PollInt (-1)))
  /\ (forall st,
        result (poll_with env svc w) = Return (PollStatus st)
        <-> has_job_id (self w) = true
            /\ has_job_name (self w) = true
            /\ result (job_status env svc (job_id (self w)) w) = Return st
            /\ st <> "running").
Proof.
  rewrite poll_with_result.
  pose proof (job_status_terminates env svc (job_id (self w)) w) as T.
  destruct (has_job_id (self w)).
  - destruct (result (job_status env svc (job_id (self w)) w)) as [status | e | ];
      [ | | contradiction].
    + destruct (status =? "running") eqn:R.
      * apply String.eqb_eq in R. subst status.
        split; [eauto | ]. split; [auto | ]. split; [intros F; discriminate F | ].
        split; [intros _ F; discriminate F | ].
        split; [intros st _ _ H N; injection H as <-; contradiction N; reflexivity | ].
        intros st. split; [intros F; discriminate F | ].
        intros (_ & _ & H & N). injection H as <-. contradiction N. reflexivity.
      * apply String.eqb_neq in R.
        destruct (has_job_name (self w)).
        -- split; [eauto | ].
           split; [intros _ H; injection H as ->; contradiction R; reflexivity | ].
           split; [intros F; discriminate F | ].
           split; [intros _ F; discriminate F | ].
           split; [intros st _ F; discriminate F | ].
           intros st. split.
           ++ intros H. injection H as <-. auto.
           ++ intros (_ & _ & H & _). injection H as <-. reflexivity.
        -- split; [eauto | ].
           split; [intros _ H; injection H as ->; contradiction R; reflexivity | ].
           split; [intros F; discriminate F | ].
           split; [reflexivity | ].
           split; [reflexivity | ].
           intros st. split; [intros F; discriminate F | ].
           intros (_ & F & _). discriminate F.
    + split; [eauto | ]. split; [intros _ F; discriminate F | ].
      split; [intros F; discriminate F | ].
      split; [reflexivity | ]. split; [reflexivity | ].
      intros st. split; [intros F; discriminate F | ].
      intros (_ & _ & F & _). discriminate F.
  - split; [eauto | ]. split; [intros F; discriminate F | ].
    split; [reflexivity | ]. split; [reflexivity | ]. split; [reflexivity | ].
    intros st. split; [intros F; discriminate F | ].
    intros (F & _). discriminate F.
Qed.

Lemma poll_result_by_status_witness :
  result (poll_with slow_start_env sample_service (mkWorld started_spawner 2))
  = Return PollNone
  /\ result (poll_with slow_start_env sample_service (mkWorld fresh_spawner 0))
     = Return (PollInt (-1))
  /\ result (poll_with slow_start_env sample_service (mkWorld job_only_spawner 0))
     = Return (PollInt (-1)).
Proof.
  split; [ | split].
  - exact (proj1 (proj2 (@poll_result_by_status slow_start_env sample_service
                           (mkWorld started_spawner 2))) eq_refl eq_refl).
  - exact (proj1 (proj2 (proj2 (@poll_result_by_status slow_start_env sample_service
                                  (mkWorld fresh_spawner 0)))) eq_refl).
  - refine (proj1 (proj2 (proj2 (proj2 (proj2
              (@poll_result_by_status slow_start_env sample_service
                 (mkWorld job_only_spawner 0))))))
              "pending" eq_refl eq_refl eq_refl _).
    discriminate.
Defined.

Lemma delete_job_run env svc job purge w :
  delete_job env svc job purge w
  = (let params := match purge with Some true => Some true | _ => None end in
     let reply_ := delete_job_call env (calls w) (job_url svc job) params in
     (match reply_ with
      | Fails e => Raise e
      | Answer resp =>
          if is_error resp
          then Raise (NomadException ("Error deleting job: " ++ text resp)%string)
          else Return tt
      end,
      mkWorld (self w) (S (calls w)),
      [EvDeleteJob (job_url svc job) params reply_])).
Proof.
  cbv [delete_job bind await ret raise]. fold (job_url svc job). cbv zeta.
  destruct (delete_job_call env (calls w) (job_url svc job)
              match purge with Some true => Some true | _ => None end) as [resp | e];
    [destruct (is_error resp) | ]; reflexivity.
Qed.

(** X17.  From its [try] statement on, [stop] sends at most one request:
    apart from log records its trace is, when [job_id] is set, the delete
    request for that job id, without the purge parameter, followed by the
    closing of the client, whether the delete succeeds or not; when [job_id]
    was never assigned, it is the closing of the client alone. *)
Theorem stop_sends_one_delete env svc w :
  without_logs (trace (stop_with env svc w))
  = if has_job_id (self w)
    then [ EvDeleteJob (job_url svc (job_id (self w))) None
                       (delete_job_call env (calls w) (job_url svc (job_id (self w))) None);
           EvClose NomadClient ]
    else [ EvClose NomadClient ].
Proof.
  destruct (has_job_id (self w)) eqn:H.
  - cbv [stop_with try_finally try_except bind read_attr log emit aclose].
    rewrite H, delete_job_run. cbv zeta.
    destruct (delete_job_call env (calls w) (job_url svc (job_id (self w))) None)
      as [resp | e]; [destruct (is_error resp) | ]; reflexivity.
  - rewrite (stop_without_job_id env svc w H). reflexivity.
Qed.

(** [delete_job] sends the purge parameter only for [purge=True]: with
    [purge=False] the request is the one sent when [purge] is left out. *)
Lemma delete_job_purge_false_is_omitted env svc job w :
  delete_job env svc job (Some false) w = delete_job env svc job None w
  /\ trace (delete_job env svc job (Some true) w)
     = [EvDeleteJob (job_url svc job) (Some true)
                    (delete_job_call env (calls w) (job_url svc job) (Some true))].
Proof. rewrite !delete_job_run. split; reflexivity. Qed.

(** ** schedule_job, continued *)

Lemma schedule_job_run env svc job_hcl w :
  schedule_job env svc job_hcl w
  = (let parse_reply := post_jobs_parse env (calls w) (parse_url svc) job_hcl in
     let w1 := mkWorld (self w) (S (calls w)) in
     let parsing := [ EvLog "info" ("Parsing job: " ++ job_hcl)%string;
                      EvPostJobsParse (parse_url svc) job_hcl parse_reply ] in
     match parse_reply with
     | Fails e => (Raise e, w1, parsing)
     | Answer parsed =>
         if is_error parsed
         then (Raise (NomadException ("Error parsing job: " ++ text parsed)%string),
               w1, parsing)
         else
           match json parsed with
           | None => (Raise JSONDecodeError, w1, parsing)
           | Some job =>
               let register_reply :=
                 post_jobs env (S (calls w)) "/v1/jobs" (register_request job) in
               (match register_reply with
                | Fails e => Raise e
                | Answer registered =>
                    if is_error registered
                    then Raise (NomadException
                                  ("Error registering job: " ++ text registered)%string)
                    else Return (ID job)
                end,
                mkWorld (self w) (S (S (calls w))),
                parsing
                ++ [ EvLog "info" ("Got parsed job " ++ ID job)%string;
                     EvPostJobs "/v1/jobs" (register_request job) register_reply ])
           end
     end).
Proof.
  cbv [schedule_job bind await json_of log emit ret raise].
  fold (parse_url svc). cbv zeta.
  destruct (post_jobs_parse env (calls w) (parse_url svc) job_hcl) as [parsed | e];
    [ | reflexivity].
  destruct (is_error parsed); [reflexivity | ].
  destruct (json parsed) as [job | ]; [ | reflexivity].
  cbn [self calls]. fold (register_request job).
  destruct (post_jobs env (S (calls w)) "/v1/jobs" (register_request job))
    as [registered | e]; [destruct (is_error registered) | ]; reflexivity.
Qed.

(** X18.  What [schedule_job] registers is the job that the parse endpoint
    answered with, unchanged, with the fixed registration flags; a job whose
    parsing failed is never registered. *)
Theorem schedule_job_registers_the_parsed_job env svc job_hcl w url body r :
  In (EvPostJobs url body r) (trace (schedule_job env svc job_hcl w)) ->
  exists parsed job,
    post_jobs_parse env (calls w) (parse_url svc) job_hcl = Answer parsed
    /\ is_error parsed = false
    /\ json parsed = Some job
    /\ url = "/v1/jobs"
    /\ body = register_request job.
Proof.
  rewrite schedule_job_run. cbv zeta.
  destruct (post_jobs_parse env (calls w) (parse_url svc) job_hcl) as [parsed | e].
  - destruct (is_error parsed) eqn:E.
    + cbn. intros [H | [H | []]]; discriminate H.
    + destruct (json parsed) as [job | ] eqn:J.
      * cbn. intros [H | [H | [H | [H | []]]]]; try discriminate H.
        injection H as <- <- _. exists parsed, job. auto.
      * cbn. intros [H | [H | []]]; discriminate H.
  - cbn. intros [H | [H | []]]; discriminate H.
Qed.

Lemma schedule_job_registers_the_parsed_job_witness :
  exists parsed job,
    post_jobs_parse short_id_env 0 (parse_url sample_service) "job 3f786850e3"
    = Answer parsed
    /\ is_error parsed = false
    /\ json parsed = Some job
    /\ "/v1/jobs" = "/v1/jobs"
    /\ register_request {| ID := "nb"; Name := "notebook" |} = register_request job.
Proof.
  apply (@schedule_job_registers_the_parsed_job
           short_id_env sample_service "job 3f786850e3" (mkWorld fresh_spawner 0)
           "/v1/jobs" (register_request {| ID := "nb"; Name := "notebook" |}) (ok tt)).
  right. right. right. left. reflexivity.
Defined.

(** ** The service lookups of the Nomad client *)

(** X19.  [get_service_address] returns an address and port exactly when the
    response is not an error and lists one service, which it returns; no
    service and several services both raise. *)
Theorem get_service_address_returns_iff env svc service_name_ w a p :
  result (get_service_address env svc service_name_ w) = Return (a, p)
  <-> exists resp,
        get_service env (calls w)
          ("/v1/service/" ++ service_name_ ++ "?namespace=" ++ namespace svc)%string
        = Answer resp
        /\ is_error resp = false
        /\ json resp = Some [ {| srv_Address := a; srv_Port := p |} ].
Proof.
  cbv [get_service_address bind await json_of ret raise result].
  destruct (get_service env (calls w)
              ("/v1/service/" ++ service_name_ ++ "?namespace=" ++ namespace svc)%string)
    as [resp | e].
  - destruct (is_error resp) eqn:E; cbn.
    + split; [intros H; discriminate H | ].
      intros (r & H & F & _). injection H as <-. rewrite E in F. discriminate F.
    + destruct (json resp) as [[ | [a' p'] [ | s2 rest]] | ] eqn:J; cbn.
      * split; [intros H; discriminate H | ].
        intros (r & H & _ & F). injection H as <-. rewrite J in F. discriminate F.
      * split.
        -- intros H. injection H as <- <-. exists resp. auto.
        -- intros (r & H & _ & F). injection H as <-. rewrite J in F.
           injection F as <- <-. reflexivity.
      * split; [intros H; discriminate H | ].
        intros (r & H & _ & F). injection H as <-. rewrite J in F. discriminate F.
      * split; [intros H; discriminate H | ].
        intros (r & H & _ & F). injection H as <-. rewrite J in F. discriminate F.
  - cbn. split; [intros H; discriminate H | ].
    intros (r & H & _). discriminate H.
Qed.

(** X20.  [get_service_of_allocation] reads the first network of the allocation
    and the first dynamic port of that network only: it returns exactly when
    both exist, whatever the other networks and ports are. *)
Theorem get_service_of_allocation_returns_iff get_allocation svc allocation_id w ip port :
  result (get_service_of_allocation get_allocation svc allocation_id w) = Return (ip, port)
  <-> exists resp ports networks,
        get_allocation (calls w)
          ("/v1/allocation/" ++ allocation_id ++ "?namespace=" ++ namespace svc)%string
        = Answer resp
        /\ is_error resp = false
        /\ json resp
           = Some {| Networks :=
                       {| IP := ip; DynamicPorts := {| Value := port |} :: ports |}
                       :: networks |}.
Proof.
  unfold get_service_of_allocation, result.
  destruct (get_allocation (calls w)
              ("/v1/allocation/" ++ allocation_id ++ "?namespace=" ++ namespace svc)%string)
    as [resp | e].
  - destruct (is_error resp) eqn:E; cbn [fst].
    + split; [intros H; discriminate H | ].
      intros (r & ps & ns & H & F & _). injection H as <-. rewrite E in F. discriminate F.
    + destruct (json resp) as [[[ | [ip' [ | [port'] ps]] ns]] | ] eqn:J; cbn [fst Networks DynamicPorts IP Value].
      * split; [intros H; discriminate H | ].
        intros (r & ps & ns & H & _ & F). injection H as <-. rewrite J in F. discriminate F.
      * split; [intros H; discriminate H | ].
        intros (r & ps & ns' & H & _ & F). injection H as <-. rewrite J in F. discriminate F.
      * split.
        -- intros H. injection H as <- <-. exists resp, ps, ns. auto.
        -- intros (r & ps' & ns' & H & _ & F). injection H as <-. rewrite J in F.
           injection F as <- <- _ _. reflexivity.
      * split; [intros H; discriminate H | ].
        intros (r & ps & ns & H & _ & F). injection H as <-. rewrite J in F. discriminate F.
  - cbn [fst]. split; [intros H; discriminate H | ].
    intros (r & ps & ns & H & _). discriminate H.
Qed.

(** ** The HTTP client of the Nomad service *)

(** X21.  When [build_nomad_httpx_client] builds a client: certificate
    verification keeps its default exactly when there is no TLS
    configuration; it is switched off exactly when there is one and either
    [skip_verify] is set or no CA certificate is given; a client certificate
    is passed exactly when there is a TLS configuration; the token header is
    passed exactly when the token is a non-empty string. *)
Theorem client_verification resolve load_verify_locations config args :
  build_nomad_httpx_client resolve load_verify_locations config = inr args ->
  (verify args = VerifyDefault <-> tls_config config = None)
  /\ (verify args = VerifyOff
      <-> exists tls, tls_config config = Some tls
                      /\ (skip_verify tls = true \/ ca_cert tls = None))
  /\ (cert args = None <-> tls_config config = None)
  /\ (headers args = None <-> truthy (nomad_token config) = false).
Proof.
  unfold build_nomad_httpx_client.
  destruct (tls_config config) as [tls | ] eqn:T.
  - destruct (skip_verify tls) eqn:S.
    + intros H. injection H as <-. cbn.
      repeat split; try (intros H; discriminate H); eauto.
      * destruct (truthy (nomad_token config)); [intros H; discriminate H | reflexivity].
      * intros ->. reflexivity.
    + destruct (ca_cert tls) as [ca | ] eqn:C.
      * destruct (load_verify_locations (resolve ca)); [intros H; discriminate H | ].
        intros H. injection H as <-. cbn.
        repeat split; try (intros H; discriminate H).
        -- intros (tls' & H & [F | F]); injection H as <-; congruence.
        -- destruct (truthy (nomad_token config)); [intros H; discriminate H | reflexivity].
        -- intros ->. reflexivity.
      * intros H. injection H as <-. cbn.
        repeat split; try (intros H; discriminate H); eauto.
        -- destruct (truthy (nomad_token config)); [intros H; discriminate H | reflexivity].
        -- intros ->. reflexivity.
  - intros H. injection H as <-. cbn.
    repeat split; try (intros H; discriminate H); auto.
    + intros (tls' & H & _). discriminate H.
    + destruct (truthy (nomad_token config)); [intros H; discriminate H | reflexivity].
    + intros ->. reflexivity.
Qed.

Lemma client_verification_witness :
  (VerifyOff = VerifyDefault <-> @Some NomadTLSConfig
                                   {| ca_cert := None; ca_path := None;
                                      client_cert := "client.pem"; client_key := "client.key";
                                      skip_verify := false; tls_server_name := None |} = None)
  /\ (VerifyOff = VerifyOff
      <-> exists tls,
            Some {| ca_cert := None; ca_path := None;
                    client_cert := "client.pem"; client_key := "client.key";
                    skip_verify := false; tls_server_name := None |} = Some tls
            /\ (skip_verify tls = true \/ ca_cert tls = None))
  /\ (Some ("/etc/client.pem", "/etc/client.key") = None
      <-> @Some NomadTLSConfig
            {| ca_cert := None; ca_path := None;
               client_cert := "client.pem"; client_key := "client.key";
               skip_verify := false; tls_server_name := None |} = None)
  /\ (@None (list (string * string)) = None <-> truthy None = false).
Proof.
  apply (@client_verification
           (fun p => ("/etc/" ++ p)%string) (fun _ => None)
           {| nomad_addr := "https://nomad.example:4646";
              nomad_token := None;
              tls_config := Some {| ca_cert := None; ca_path := None;
                                    client_cert := "client.pem"; client_key := "client.key";
                                    skip_verify := false; tls_server_name := None |} |}
           {| base_url := "https://nomad.example:4646";
              verify := VerifyOff;
              cert := Some ("/etc/client.pem", "/etc/client.key");
              headers := None |}).
  reflexivity.
Defined.

(** X22.  With the configuration that [build_nomad_config_from_options] makes of
    the spawner's traits, TLS is used exactly when [nomad_client_key] is not
    empty, and then the CA certificate is a path object even for an empty
    [nomad_ca_cert]: verification is switched off only by
    [nomad_tls_skip_verify], and otherwise the CA file is loaded from the
    resolved [nomad_ca_cert], whose failure fails the construction. *)
Theorem client_from_options resolve load_verify_locations options :
  build_nomad_httpx_client resolve load_verify_locations
    (build_nomad_config_from_options options)
  = (let token_header :=
       if truthy (Some (opt_nomad_token options))
       then Some [("X-Nomad-Token", opt_nomad_token options)] else None in
     if truthy (Some (opt_nomad_client_key options))
     then
       let cert_ := Some (resolve (opt_nomad_client_cert options),
                          resolve (opt_nomad_client_key options)) in
       if opt_nomad_tls_skip_verify options
       then inr {| base_url := opt_nomad_addr options; verify := VerifyOff;
                   cert := cert_; headers := token_header |}
       else
         match load_verify_locations (resolve (opt_nomad_ca_cert options)) with
         | Some e => inl e
         | None =>
             inr {| base_url := opt_nomad_addr options;
                    verify := VerifyContext (resolve (opt_nomad_ca_cert options));
                    cert := cert_; headers := token_header |}
         end
     else inr {| base_url := opt_nomad_addr options; verify := VerifyDefault;
                 cert := None; headers := token_header |}).
Proof.
  unfold build_nomad_httpx_client, build_nomad_config_from_options.
  cbn [tls_config nomad_addr nomad_token].
  destruct (truthy (Some (opt_nomad_client_key options))); [ | reflexivity].
  cbn [skip_verify ca_cert client_cert client_key].
  destruct (opt_nomad_tls_skip_verify options); [reflexivity | ].
  destruct (load_verify_locations (resolve (opt_nomad_ca_cert options))); reflexivity.
Qed.

(** ** start, continued *)

Lemma bind_get_self {A} (k : Spawner -> M A) w : bind get_self k w = k (self w) w.
Proof.
  unfold bind, get_self. destruct (k (self w) w) as [[o w2] t2]. reflexivity.
Qed.

Lemma start_try_split env svc fuel w :
  start_try env svc fuel w
  = (log "info" ("server name: " ++ name (self w))%string ;;
     volume_data <- volume_stage env svc (self w) ;;
     start_after_volume env svc fuel (self w) volume_data) w.
Proof. unfold start_try. rewrite bind_get_self. reflexivity. Qed.

Lemma start_with_of_start_try env svc fuel w :
  start_with env svc fuel w
  = (fst (fst (start_try env svc fuel w)),
     snd (fst (start_try env svc fuel w)),
     snd (start_try env svc fuel w)
     ++ match fst (fst (start_try env svc fuel w)) with
        | Return _ => [EvClose NomadClient; EvClose ConsulClient]
        | Raise _ => [EvLog "error" "Failed to start"; EvClose NomadClient;
                      EvClose ConsulClient]
        | OutOfFuel => []
        end).
Proof.
  cbv [start_with try_finally try_except bind log emit aclose raise].
  destruct (start_try env svc fuel w) as [[[v | e | ] w1] t1]; cbn [fst snd];
    rewrite ?app_nil_r, <- ?app_assoc; reflexivity.
Qed.

(** X23.  From its [try] statement on, [start] hands on what its [try] block
    gives: the same result or the same exception, and the same spawner
    object; an exception is logged before it is raised again, and both
    clients are closed on the way out, after a success and after a
    failure. *)
Theorem start_reraises_and_closes env svc fuel w :
  result (start_with env svc fuel w) = result (start_try env svc fuel w)
  /\ final (start_with env svc fuel w) = final (start_try env svc fuel w)
  /\ trace (start_with env svc fuel w)
     = trace (start_try env svc fuel w)
       ++ match result (start_try env svc fuel w) with
          | Return _ => [EvClose NomadClient; EvClose ConsulClient]
          | Raise _ => [EvLog "error" "Failed to start"; EvClose NomadClient;
                        EvClose ConsulClient]
          | OutOfFuel => []
          end.
Proof. rewrite start_with_of_start_try. repeat split. Qed.

Lemma create_volume_run env svc id plugin_id parameters min_size w :
  create_volume env svc id plugin_id parameters min_size w
  = (let request := create_volume_request id plugin_id parameters min_size in
     let reply_ := put_volume_create env (calls w) (create_volume_url svc id) request in
     let w' := mkWorld (self w) (S (calls w)) in
     let ev := EvPutVolumeCreate (create_volume_url svc id) request reply_ in
     match reply_ with
     | Fails e => (Raise e, w', [ev])
     | Answer resp =>
         if is_error resp
            && (negb (contains marker_access_point (text resp))
                && negb (contains marker_external_id (text resp)))
         then (Raise (NomadException
                        ("Error registering volume. status code: "
                         ++ str_of_Z (status_code resp)
                         ++ ", content: " ++ text resp)%string),
               w', [ev])
         else (Return tt, w',
               [ev; EvLog "info"
                      ("Created volume (status code: " ++ str_of_Z (status_code resp)
                       ++ ")")%string])
     end).
Proof.
  cbv [create_volume bind await log emit ret raise].
  fold (create_volume_request id plugin_id parameters min_size).
  fold (create_volume_url svc id). cbv zeta.
  destruct (put_volume_create env (calls w) (create_volume_url svc id)
              (create_volume_request id plugin_id parameters min_size)) as [resp | e];
    [ | reflexivity].
  destruct (is_error resp); [ | reflexivity].
  destruct (negb (contains marker_access_point (text resp))
            && negb (contains marker_external_id (text resp))); reflexivity.
Qed.

(** X24.  When a CSI volume is asked for and [create_volume] raises, [start]
    raises the same exception and goes no further: no job is parsed or
    registered, the registry is not queried, and the spawner object is left
    as it was. *)
Theorem start_stops_at_failed_volume env svc fuel w e :
  volume_type (user_options (self w)) = Some "csi" ->
  result (create_volume env svc (volume_id_of env (self w))
            (volume_csi_plugin_id (user_options (self w))) None None w) = Raise e ->
  result (start_with env svc fuel w) = Raise e
  /\ final (start_with env svc fuel w) = self w
  /\ existsb is_submission (trace (start_with env svc fuel w)) = false
  /\ existsb is_registry_query (trace (start_with env svc fuel w)) = false
  /\ existsb is_volume_create (trace (start_with env svc fuel w)) = true.
Proof.
  intros Hv Hc.
  rewrite start_with_of_start_try, start_try_split.
  unfold volume_stage. rewrite Hv.
  cbv [truthy py_str String.eqb Ascii.eqb Bool.eqb bind log emit result final trace].
  cbn [fst snd].
  rewrite create_volume_run in Hc |- *. cbv zeta in Hc |- *.
  destruct (put_volume_create env (calls w) (create_volume_url svc (volume_id_of env (self w)))
              (create_volume_request (volume_id_of env (self w))
                 (volume_csi_plugin_id (user_options (self w))) None None))
    as [resp | x].
  - destruct (is_error resp
              && (negb (contains marker_access_point (text resp))
                  && negb (contains marker_external_id (text resp))));
      [ | discriminate Hc].
    cbn in Hc. injection Hc as <-. repeat split.
  - cbn in Hc. injection Hc as <-. repeat split.
Qed.

Lemma start_stops_at_failed_volume_witness :
  result (start_with no_volume_env sample_service 10 (mkWorld (spawner_with csi_volume) 0))
  = Raise (NomadException
             "Error registering volume. status code: 500, content: plugin plugin-x not found")
  /\ final (start_with no_volume_env sample_service 10 (mkWorld (spawner_with csi_volume) 0))
     = spawner_with csi_volume
  /\ existsb is_submission
       (trace (start_with no_volume_env sample_service 10
                 (mkWorld (spawner_with csi_volume) 0))) = false
  /\ existsb is_registry_query
       (trace (start_with no_volume_env sample_service 10
                 (mkWorld (spawner_with csi_volume) 0))) = false
  /\ existsb is_volume_create
       (trace (start_with no_volume_env sample_service 10
                 (mkWorld (spawner_with csi_volume) 0))) = true.
Proof.
  apply (@start_stops_at_failed_volume
           no_volume_env sample_service 10 (mkWorld (spawner_with csi_volume) 0)
           (NomadException
              "Error registering volume. status code: 500, content: plugin plugin-x not found")).
  - reflexivity.
  - reflexivity.
Defined.

Lemma schedule_job_trace_prefix env svc job_hcl w :
  exists t,
    trace (schedule_job env svc job_hcl w)
    = EvLog "info" ("Parsing job: " ++ job_hcl)%string
      :: EvPostJobsParse (parse_url svc) job_hcl
           (post_jobs_parse env (calls w) (parse_url svc) job_hcl)
      :: t.
Proof.
  rewrite schedule_job_run. cbv zeta.
  destruct (post_jobs_parse env (calls w) (parse_url svc) job_hcl) as [parsed | e];
    [ | cbn; eauto].
  destruct (is_error parsed); [cbn; eauto | ].
  destruct (json parsed); cbn; eauto.
Qed.

Lemma start_after_volume_trace_prefix env svc fuel s volume_data w :
  exists t,
    trace (start_after_volume env svc fuel s volume_data w)
    = EvLog "info" ("Parsing job: " ++ create_job env (job_data_of env s volume_data))%string
      :: EvPostJobsParse (parse_url svc) (create_job env (job_data_of env s volume_data))
           (post_jobs_parse env (calls w) (parse_url svc)
              (create_job env (job_data_of env s volume_data)))
      :: t.
Proof.
  unfold start_after_volume.
  match goal with
  | |- context [bind ?m ?k w] =>
      destruct (bind_trace_prefix m k w) as [t1 H1]; rewrite H1
  end.
  destruct (schedule_job_trace_prefix env svc
              (create_job env (job_data_of env s volume_data)) w) as [t2 H2].
  rewrite H2. cbn [app]. eauto.
Qed.



Lemma keeps_self_create_volume env svc id plugin_id parameters min_size :
  keeps_self (create_volume env svc id plugin_id parameters min_size).
Proof. unfold create_volume, log. keeps_self_steps. Qed.

Lemma keeps_self_volume_stage env svc s : keeps_self (volume_stage env svc s).
Proof.
  unfold volume_stage, log. keeps_self_steps.
Qed.

Lemma keeps_self_job_status env svc job : keeps_self (job_status env svc job).
Proof. unfold job_status. keeps_self_steps. Qed.

Lemma keeps_self_ensure_running_loop env svc status fuel :
  keeps_self (_ensure_running_loop env svc status fuel).
Proof.
  revert status. induction fuel as [ | fuel IH]; intros status.
  - intros w. reflexivity.
  - cbn [_ensure_running_loop]. unfold log, sleep.
    apply keeps_self_bind; [apply keeps_self_get_self | intros s].
    apply keeps_self_bind.
    + apply keeps_self_try_except; [ | intros e; keeps_self_steps].
      apply keeps_self_bind; [apply keeps_self_job_status | intros st; apply keeps_self_ret].
    + intros [st | ]; [ | apply keeps_self_raise].
      repeat apply keeps_self_if; keeps_self_steps. apply IH.
Qed.

Ltac find_in H :=
  first
    [ exact H
    | apply in_or_app; first [ left; find_in H | right; find_in H ]
    | right; find_in H ].

Lemma keeps_self_service env : keeps_self (service env).
Proof. intros w. exact (proj1 (proj2 (retrying_outcome env 4 w))). Qed.

Lemma keeps_self_run {A} (m : M A) w o w1 t :
  keeps_self m -> m w = (o, w1, t) -> self w1 = self w.
Proof. intros K H. specialize (K w). rewrite H in K. exact K. Qed.

Lemma unpack2_Return_inv s w pair w1 t :
  unpack2 s w = (Return pair, w1, t) ->
  exists a b, s = String a (String b EmptyString)
              /\ pair = (String a EmptyString, String b EmptyString)
              /\ w1 = w.
Proof.
  destruct s as [ | a [ | b [ | c s]]]; cbn; intros H; try discriminate H.
  injection H as <- <- _. exists a, b. auto.
Qed.

Lemma schedule_job_Return_inv env svc job_hcl w returned w1 t :
  schedule_job env svc job_hcl w = (Return returned, w1, t) ->
  self w1 = self w
  /\ exists parsed job,
       In (EvPostJobsParse (parse_url svc) job_hcl (Answer parsed)) t
       /\ json parsed = Some job
       /\ returned = ID job.
Proof.
  rewrite schedule_job_run. cbv zeta.
  destruct (post_jobs_parse env (calls w) (parse_url svc) job_hcl) as [parsed | e];
    [ | discriminate].
  destruct (is_error parsed); [discriminate | ].
  destruct (json parsed) as [job | ] eqn:J; [ | discriminate].
  destruct (post_jobs env (S (calls w)) "/v1/jobs" (register_request job))
    as [registered | e]; [destruct (is_error registered) | ]; try discriminate.
  intros H. injection H as <- <- <-. split; [reflexivity | ].
  exists parsed, job. split; [right; left; reflexivity | auto].
Qed.

(** X27.  When [start] returns, from its [try] statement on, the four identity
    fields are set: [notebook_id] is the first ten characters of the digest
    of user and server name, [service_name] is [job_id] followed by
    [-notebook], and [job_id] and [job_name] are the first and the second
    character of the id of the parsed job, which has exactly two
    characters. *)
Theorem start_success_sets_identity env svc fuel w address_port :
  result (start_with env svc fuel w) = Return address_port ->
  exists a b hcl parsed job,
    In (EvPostJobsParse (parse_url svc) hcl (Answer parsed)) (trace (start_with env svc fuel w))
    /\ json parsed = Some job
    /\ ID job = String a (String b EmptyString)
    /\ job_id (final (start_with env svc fuel w)) = Some (String a EmptyString)
    /\ job_name (final (start_with env svc fuel w)) = Some (String b EmptyString)
    /\ service_name (final (start_with env svc fuel w)) = Some (String a "-notebook")
    /\ notebook_id (final (start_with env svc fuel w))
       = Some (substring 0 10
                 (sha1_hexdigest env (user_name (self w) ++ ":" ++ name (self w))%string)).
Proof.
  rewrite start_with_of_start_try. unfold result, final, trace. cbn [fst snd].
  destruct (start_try env svc fuel w) as [[o wf] tf] eqn:E. cbn [fst snd].
  intros ->.
  rewrite start_try_split in E.
  apply bind_Return_inv in E. destruct E as ([] & w1 & t1 & t2 & E1 & E & ->).
  injection E1 as <- <-.
  apply bind_Return_inv in E. destruct E as (vd & w2 & t3 & t4 & E2 & E & ->).
  pose proof (@keeps_self_run _ _ _ _ _ _ (keeps_self_volume_stage env svc (self w)) E2) as K2.
  unfold start_after_volume in E.
  apply bind_Return_inv in E. destruct E as (returned & w3 & t5 & t6 & E3 & E & ->).
  apply schedule_job_Return_inv in E3.
  destruct E3 as (K3 & parsed & job & Hin & Hj & ->).
  apply bind_Return_inv in E. destruct E as (pair & w4 & t7 & t8 & E4 & E & ->).
  apply unpack2_Return_inv in E4. destruct E4 as (a & b & Hid & -> & ->).
  cbn [fst snd] in E.
  apply bind_Return_inv in E. destruct E as ([] & w5 & t9 & t10 & E5 & E & ->).
  injection E5 as <- <-.
  apply bind_Return_inv in E. destruct E as ([] & w6 & t11 & t12 & E6 & E & ->).
  injection E6 as <- <-.
  apply bind_Return_inv in E. destruct E as ([] & w7 & t13 & t14 & E7 & E & ->).
  injection E7 as <- <-.
  apply bind_Return_inv in E. destruct E as ([] & w8 & t15 & t16 & E8 & E & ->).
  unfold _ensure_running in E8.
  pose proof (@keeps_self_run _ _ _ _ _ _ (keeps_self_ensure_running_loop env svc None fuel) E8) as K8.
  cbn [self] in K8.
  apply bind_Return_inv in E. destruct E as ([] & w9 & t17 & t18 & E9 & E & ->).
  injection E9 as <- <-.
  pose proof (@keeps_self_run _ _ _ _ _ _ (keeps_self_service env) E) as K10.
  cbn [self] in K10.
  exists a, b, (create_job env (job_data_of env (self w) vd)), parsed, job.
  split.
  { find_in Hin. }
  split; [exact Hj | ]. split; [exact Hid | ].
  rewrite K10, K8. cbn. auto.
Qed.

Lemma start_success_sets_identity_witness :
  exists a b hcl parsed job,
    In (EvPostJobsParse (parse_url sample_service) hcl (Answer parsed))
       (trace (start_with short_id_env sample_service 10 (mkWorld fresh_spawner 0)))
    /\ json parsed = Some job
    /\ ID job = String a (String b EmptyString)
    /\ job_id (final (start_with short_id_env sample_service 10 (mkWorld fresh_spawner 0)))
       = Some (String a EmptyString)
    /\ job_name (final (start_with short_id_env sample_service 10 (mkWorld fresh_spawner 0)))
       = Some (String b EmptyString)
    /\ service_name (final (start_with short_id_env sample_service 10
                              (mkWorld fresh_spawner 0)))
       = Some (String a "-notebook")
    /\ notebook_id (final (start_with short_id_env sample_service 10
                             (mkWorld fresh_spawner 0)))
       = Some (substring 0 10
                 (sha1_hexdigest short_id_env
                    (user_name (self (mkWorld fresh_spawner 0)) ++ ":"
                     ++ name (self (mkWorld fresh_spawner 0)))%string)).
Proof.
  apply (@start_success_sets_identity
           short_id_env sample_service 10 (mkWorld fresh_spawner 0) ("10.0.0.7", 8888%Z)).
  reflexivity.
Defined.

Lemma silent_delete_ensure_running_loop env svc status fuel :
  silent is_delete (_ensure_running_loop env svc status fuel).
Proof.
  revert status. induction fuel as [ | fuel IH]; intros status.
  - intros w. reflexivity.
  - cbn [_ensure_running_loop]. unfold job_status, log, sleep.
    apply silent_bind; [apply silent_get_self | intros s].
    apply silent_bind; [silent_steps | ].
    intros [st | ]; [ | apply silent_raise].
    repeat apply silent_if; silent_steps. apply IH.
Qed.

Lemma silent_delete_retrying env k :
  silent is_delete (retrying 3 k (service_attempt env)).
Proof.
  induction k as [ | k IH]; cbn [retrying]; unfold sleep;
    (apply silent_try_except;
     [ intros w; unfold trace; rewrite service_attempt_run;
       destruct (health_service env (calls w) (service_name (self w)))
         as [[ | node rest] | x]; reflexivity
     | intros e; silent_steps ]).
Qed.

(** X28.  From its [try] statement on, [start] never rolls back: on no path,
    failing ones included, does it send a request that deletes a job or a
    volume. *)
Theorem start_never_deletes env svc fuel w :
  existsb is_delete (trace (start_with env svc fuel w)) = false.
Proof.
  revert w. change (silent is_delete (start_with env svc fuel)).
  unfold start_with, start_try, create_volume, schedule_job, _ensure_running, service,
    retry, log, aclose.
  apply silent_try_finally; [ | silent_steps].
  apply silent_try_except; [ | intros e; silent_steps].
  apply silent_bind; [apply silent_get_self | intros s]. cbv zeta.
  apply silent_bind; [silent_steps | intros _].
  apply silent_bind; [silent_steps | intros volume_data].
  apply silent_bind; [silent_steps | intros returned].
  apply silent_bind.
  { destruct returned as [ | a [ | b [ | c r]]]; cbn; silent_steps. }
  intros pair.
  do 3 (apply silent_bind; [apply silent_modify_self | intros _]).
  apply silent_bind; [apply silent_delete_ensure_running_loop | intros _].
  apply silent_bind; [apply silent_modify_self | intros _].
  apply silent_delete_retrying.
Qed.

(** X25.  When a CSI volume is asked for with its destination and its plugin
    id given, and its creation succeeds, the volume request is the first
    request of [start] and the parsing of the job comes right after it; the
    job is built with a [csi] volume whose source is the volume id derived
    from the notebook id and whose destination is the one asked for.  (A
    volume asked for without a destination is for the job builder to refuse;
    nothing is said about it here.) *)
Theorem start_creates_volume_before_submitting env svc fuel w destination plugin_id :
  volume_type (user_options (self w)) = Some "csi" ->
  volume_destination (user_options (self w)) = Some destination ->
  volume_csi_plugin_id (user_options (self w)) = Some plugin_id ->
  result (create_volume env svc (volume_id_of env (self w))
            (Some plugin_id) None None w) = Return tt ->
  exists t,
    trace (start_with env svc fuel w)
    = EvLog "info" ("server name: " ++ name (self w))%string
      :: EvLog "info" "Configuring volume of type: csi"
      :: trace (create_volume env svc (volume_id_of env (self w))
                  (Some plugin_id) None None w)
      ++ EvLog "info"
           ("Parsing job: "
            ++ create_job env
                 (job_data_of env (self w)
                    (Some {| jv_type := "csi";
                             jv_destination := Some destination;
                             jv_source := Some (volume_id_of env (self w)) |})))%string
      :: EvPostJobsParse (parse_url svc)
           (create_job env
              (job_data_of env (self w)
                 (Some {| jv_type := "csi";
                          jv_destination := Some destination;
                          jv_source := Some (volume_id_of env (self w)) |})))
           (post_jobs_parse env (S (calls w)) (parse_url svc)
              (create_job env
                 (job_data_of env (self w)
                    (Some {| jv_type := "csi";
                             jv_destination := Some destination;
                             jv_source := Some (volume_id_of env (self w)) |}))))
      :: t.
Proof.
  intros Hv Hd Hp. rewrite <- Hd, <- Hp. intros Hc.
  destruct (try_finally_trace_prefix
              (try_except (start_try env svc fuel)
                 (fun e => log "error" "Failed to start" ;; raise e))
              (aclose NomadClient ;; aclose ConsulClient) w) as [t1 H1].
  destruct (try_except_trace_prefix (start_try env svc fuel)
              (fun e => log "error" "Failed to start" ;; raise e) w) as [t2 H2].
  unfold start_with. rewrite H1, H2, start_try_split.
  unfold volume_stage. rewrite Hv.
  cbv [truthy py_str String.eqb Ascii.eqb Bool.eqb].
  assert (Hw : snd (fst (create_volume env svc (volume_id_of env (self w))
                           (volume_csi_plugin_id (user_options (self w))) None None w))
               = mkWorld (self w) (S (calls w))).
  { rewrite create_volume_run. cbv zeta.
    destruct (put_volume_create env (calls w) _ _) as [resp | x]; [ | reflexivity].
    destruct (is_error resp && _); reflexivity. }
  destruct (start_after_volume_trace_prefix env svc fuel (self w)
              (Some {| jv_type := "csi";
                       jv_destination := volume_destination (user_options (self w));
                       jv_source := Some (volume_id_of env (self w)) |})
              (mkWorld (self w) (S (calls w)))) as [t3 H3].
  cbn [calls] in H3.
  unfold trace, result in *. cbv [bind log emit ret].
  destruct (create_volume env svc (volume_id_of env (self w))
              (volume_csi_plugin_id (user_options (self w))) None None w)
    as [[o w1] tv].
  cbn [fst snd] in Hc, Hw |- *. subst o w1.
  destruct (start_after_volume env svc fuel (self w)
              (Some {| jv_type := "csi";
                       jv_destination := volume_destination (user_options (self w));
                       jv_source := Some (volume_id_of env (self w)) |})
              (mkWorld (self w) (S (calls w)))) as [[o w5] t5].
  cbn [snd] in H3. subst t5. cbn [snd app].
  rewrite app_nil_r, <- !app_assoc. cbn [app]. eauto.
Qed.

Lemma start_creates_volume_before_submitting_witness :
  exists t,
    trace (start_with short_id_env sample_service 10 (mkWorld (spawner_with csi_volume) 0))
    = EvLog "info" "server name: lab"
      :: EvLog "info" "Configuring volume of type: csi"
      :: trace (create_volume short_id_env sample_service
                  (volume_id_of short_id_env (spawner_with csi_volume))
                  (Some "plugin-x") None None (mkWorld (spawner_with csi_volume) 0))
      ++ EvLog "info"
           ("Parsing job: "
            ++ create_job short_id_env
                 (job_data_of short_id_env (spawner_with csi_volume)
                    (Some {| jv_type := "csi";
                             jv_destination := Some "/home/jovyan/work";
                             jv_source :=
                               Some (volume_id_of short_id_env (spawner_with csi_volume)) |})))%string
      :: EvPostJobsParse (parse_url sample_service)
           (create_job short_id_env
              (job_data_of short_id_env (spawner_with csi_volume)
                 (Some {| jv_type := "csi";
                          jv_destination := Some "/home/jovyan/work";
                          jv_source :=
                            Some (volume_id_of short_id_env (spawner_with csi_volume)) |})))
           (ok {| ID := "nb"; Name := "notebook" |})
      :: t.
Proof.
  apply (@start_creates_volume_before_submitting
           short_id_env sample_service 10 (mkWorld (spawner_with csi_volume) 0)
           "/home/jovyan/work" "plugin-x");
    reflexivity.
Defined.

(** ** Ordering of the remote calls of start, continued *)

Lemma status_queries_for_silent svc job t :
  existsb is_status_query t = false -> status_queries_for svc job t.
Proof.
  intros H url r Hin.
  assert (T : existsb is_status_query t = true).
  { apply existsb_exists. exists (EvGetJob url r). split; [exact Hin | reflexivity]. }
  congruence.
Qed.

Lemma status_queries_for_app svc job t1 t2 :
  status_queries_for svc job t1 -> status_queries_for svc job t2 ->
  status_queries_for svc job (t1 ++ t2).
Proof.
  intros H1 H2 url r Hin. apply in_app_or in Hin. destruct Hin as [Hin | Hin];
    [exact (H1 url r Hin) | exact (H2 url r Hin)].
Qed.

Lemma status_queries_for_cons svc job e t :
  is_status_query e = false -> status_queries_for svc job t ->
  status_queries_for svc job (e :: t).
Proof.
  intros He H url r [Hin | Hin]; [subst e; discriminate He | exact (H url r Hin)].
Qed.

Lemma status_queries_for_query svc job r t :
  status_queries_for svc job t ->
  status_queries_for svc job (EvGetJob (job_url svc job) r :: t).
Proof.
  intros H url r' [Hin | Hin]; [injection Hin as <- _; reflexivity | exact (H url r' Hin)].
Qed.

Lemma job_status_shape env svc job w :
  exists o,
    job_status env svc job w
    = (o, mkWorld (self w) (S (calls w)),
       [EvGetJob (job_url svc job) (get_job env (calls w) (job_url svc job))]).
Proof. rewrite job_status_of_reply. eauto. Qed.

(** The status queries of the awaiting loop are all for [self.job_id]. *)
Lemma ensure_running_loop_queries env svc status fuel w :
  status_queries_for svc (job_id (self w))
    (trace (_ensure_running_loop env svc status fuel w)).
Proof.
  revert status w. induction fuel as [ | fuel IH]; intros status w.
  - intros url r [].
  - assert (Next : forall st,
              status_queries_for svc (job_id (self w))
                (trace (_ensure_running_loop env svc st fuel
                          (mkWorld (self w) (S (calls w)))))).
    { intros st. exact (IH st (mkWorld (self w) (S (calls w)))). }
    assert (Wait : forall st,
              status_queries_for svc (job_id (self w))
                (EvLog "info" ("Waiting for " ++ py_str (job_id (self w)) ++ "...")%string
                 :: EvSleep 5
                 :: trace (_ensure_running_loop env svc st fuel
                             (mkWorld (self w) (S (calls w)))))).
    { intros st. repeat (apply status_queries_for_cons; [reflexivity | ]). apply Next. }
    clear IH Next.
    cbn [_ensure_running_loop].
    cbv [bind get_self try_except ret log emit sleep raise].
    destruct (job_status_shape env svc (job_id (self w)) w) as [o ->].
    destruct o as [st | e | ].
    + destruct (st =? "running"); [ | destruct (st =? "dead")].
      * cbn. apply status_queries_for_query. intros url r [].
      * cbn. apply status_queries_for_query. intros url r [].
      * specialize (Wait (Some st)). unfold trace in Wait.
        destruct (_ensure_running_loop env svc (Some st) fuel
                    (mkWorld (self w) (S (calls w)))) as [[o w3] t3].
        cbn in Wait |- *. apply status_queries_for_query. exact Wait.
    + destruct status as [st | ].
      * destruct (st =? "running"); [ | destruct (st =? "dead")].
        -- cbn. apply status_queries_for_query.
           apply status_queries_for_cons; [reflexivity | ]. intros url r [].
        -- cbn. apply status_queries_for_query.
           apply status_queries_for_cons; [reflexivity | ]. intros url r [].
        -- specialize (Wait (Some st)). unfold trace in Wait.
           destruct (_ensure_running_loop env svc (Some st) fuel
                       (mkWorld (self w) (S (calls w)))) as [[o w3] t3].
           cbn in Wait |- *. apply status_queries_for_query.
           apply status_queries_for_cons; [reflexivity | ]. exact Wait.
      * cbn. apply status_queries_for_query.
        apply status_queries_for_cons; [reflexivity | ]. intros url r [].
    + cbn. apply status_queries_for_query. intros url r [].
Qed.

Lemma silent_run {A} (p : Event -> bool) (m : M A) w o w1 t :
  silent p m -> m w = (o, w1, t) -> existsb p t = false.
Proof. intros S H. specialize (S w). rewrite H in S. exact S. Qed.

Lemma silent_status_volume_stage env svc s : silent is_status_query (volume_stage env svc s).
Proof. unfold volume_stage, create_volume, log. silent_steps. Qed.

Lemma silent_status_schedule_job env svc job_hcl :
  silent is_status_query (schedule_job env svc job_hcl).
Proof. unfold schedule_job, log. silent_steps. Qed.

Lemma silent_status_service env : silent is_status_query (service env).
Proof.
  unfold service, retry. generalize (5 - 1). intros k.
  induction k as [ | k IH]; cbn [retrying]; unfold sleep;
    (apply silent_try_except;
     [ intros w; unfold trace; rewrite service_attempt_run;
       destruct (health_service env (calls w) (service_name (self w)))
         as [[ | node rest] | x]; reflexivity
     | intros e; silent_steps ]).
Qed.

(** A computation whose trace holds a registry query, and which starts with
    a quiet step, has got past that step. *)
Lemma bind_reaches_registry {A B} (m : M A) (k : A -> M B) w o w2 t :
  quiet m ->
  bind m k w = (o, w2, t) ->
  existsb is_registry_query t = true ->
  exists a w1 t1 t2,
    m w = (Return a, w1, t1) /\ k a w1 = (o, w2, t2) /\ t = t1 ++ t2
    /\ existsb is_registry_query t2 = true.
Proof.
  intros Q H R. specialize (Q w). unfold bind, trace in *.
  destruct (m w) as [[[a | e | ] w1] t1]; cbn [snd] in Q.
  - destruct (k a w1) as [[o' w3] t2] eqn:K. injection H as -> -> <-.
    rewrite existsb_app, Q in R. exists a, w1, t1, t2. auto.
  - injection H as _ _ <-. congruence.
  - injection H as _ _ <-. congruence.
Qed.

(** When the [try] block of [start] queries the registry, a job has been
    parsed whose id has two characters, [self.job_id] is the first of them
    at the end of the block, and every status query of the block is for
    [self.job_id]. *)
Lemma start_try_reaching_registry env svc fuel w :
  existsb is_registry_query (trace (start_try env svc fuel w)) = true ->
  exists a b hcl parsed job,
    In (EvPostJobsParse (parse_url svc) hcl (Answer parsed))
       (trace (start_try env svc fuel w))
    /\ json parsed = Some job
    /\ ID job = String a (String b EmptyString)
    /\ job_id (final (start_try env svc fuel w)) = Some (String a EmptyString)
    /\ status_queries_for svc (Some (String a EmptyString))
         (trace (start_try env svc fuel w)).
Proof.
  unfold final, trace.
  destruct (start_try env svc fuel w) as [[o wf] tf] eqn:E. cbn [fst snd].
  intros R.
  rewrite start_try_split in E.
  apply bind_reaches_registry in E; [ | apply quiet_log | exact R]. clear R.
  destruct E as ([] & w1 & t1 & t2 & E1 & E & -> & R).
  injection E1 as <- <-.
  apply bind_reaches_registry in E; [ | | exact R]. clear R.
  2:{ unfold volume_stage.
      apply quiet_if; [ | apply quiet_ret].
      apply quiet_bind; [apply quiet_log | intros _].
      apply quiet_if; [ | apply quiet_if; apply quiet_ret].
      apply quiet_bind; [apply quiet_create_volume | intros ?; apply quiet_ret]. }
  destruct E as (vd & w2 & t3 & t4 & E2 & E & -> & R).
  pose proof (@keeps_self_run _ _ _ _ _ _ (keeps_self_volume_stage env svc (self w)) E2) as K2.
  pose proof (@silent_run _ _ _ _ _ _ _ (silent_status_volume_stage env svc (self w)) E2) as S2.
  unfold start_after_volume in E.
  apply bind_reaches_registry in E; [ | apply quiet_schedule_job | exact R]. clear R.
  destruct E as (returned & w3 & t5 & t6 & E3 & E & -> & R).
  pose proof (@silent_run _ _ _ _ _ _ _ (silent_status_schedule_job env svc _) E3) as S3.
  apply schedule_job_Return_inv in E3.
  destruct E3 as (K3 & parsed & job & Hin & Hj & ->).
  apply bind_reaches_registry in E; [ | apply quiet_unpack2 | exact R]. clear R.
  destruct E as (pair & w4 & t7 & t8 & E4 & E & -> & R).
  assert (S4 : t7 = []).
  { destruct (ID job) as [ | a [ | b [ | c s]]]; cbn in E4; try discriminate E4.
    injection E4 as _ _ <-. reflexivity. }
  apply unpack2_Return_inv in E4. destruct E4 as (a & b & Hid & -> & ->).
  subst t7. cbn [fst snd] in E.
  apply bind_reaches_registry in E; [ | apply quiet_modify_self | exact R]. clear R.
  destruct E as ([] & w5 & t9 & t10 & E5 & E & -> & R).
  injection E5 as <- <-.
  apply bind_reaches_registry in E; [ | apply quiet_modify_self | exact R]. clear R.
  destruct E as ([] & w6 & t11 & t12 & E6 & E & -> & R).
  injection E6 as <- <-.
  apply bind_reaches_registry in E; [ | apply quiet_modify_self | exact R]. clear R.
  destruct E as ([] & w7 & t13 & t14 & E7 & E & -> & R).
  injection E7 as <- <-.
  apply bind_reaches_registry in E;
    [ | apply quiet_ensure_running_loop | exact R]. clear R.
  destruct E as ([] & w8 & t15 & t16 & E8 & E & -> & R).
  unfold _ensure_running in E8.
  pose proof (@keeps_self_run _ _ _ _ _ _ (keeps_self_ensure_running_loop env svc None fuel) E8)
    as K8.
  match type of E8 with
  | _ensure_running_loop _ _ _ _ ?w0 = _ =>
      pose proof (ensure_running_loop_queries env svc None fuel w0) as Q8
  end.
  unfold trace in Q8. rewrite E8 in Q8.
  change (status_queries_for svc (Some (String a EmptyString)) t15) in Q8.
  cbn [self] in K8.
  apply bind_reaches_registry in E; [ | apply quiet_modify_self | exact R]. clear R.
  destruct E as ([] & w9 & t17 & t18 & E9 & E & -> & R).
  injection E9 as <- <-.
  pose proof (@keeps_self_run _ _ _ _ _ _ (keeps_self_service env) E) as K10.
  pose proof (@silent_run _ _ _ _ _ _ _ (silent_status_service env) E) as S10.
  cbn [self] in K10.
  exists a, b, (create_job env (job_data_of env (self w) vd)), parsed, job.
  split.
  { find_in Hin. }
  split; [exact Hj | ]. split; [exact Hid | ].
  split; [rewrite K10, K8; reflexivity | ].
  apply status_queries_for_cons; [reflexivity | ].
  apply status_queries_for_app; [apply status_queries_for_silent, S2 | ].
  apply status_queries_for_app; [apply status_queries_for_silent, S3 | ].
  cbn [app].
  apply status_queries_for_app.
  - exact Q8.
  - cbn [app]. apply status_queries_for_silent, S10.
Qed.


